(** * The Unity "jump to frame" hook of the Shotgun panel

    A shallow embedding of [hooks/tk-multi-shotgunpanel/unity_actions.py]:
    the class [UnityActions] with its two methods [generate_actions] and
    [execute_action].

    The hook talks to collaborators it does not define: the base hook class,
    the application settings and logger, the [unity_metadata] module and the
    Unity editor.  What each of them answers is given by two records of
    oracles, [toolkit] and [unity], and every call the hook makes is recorded,
    in order, in a trace.  Dict objects live in a store, because the hook
    updates one in place.  Attribute reads that only lead to the object called
    ([app.context.sgtk.shotgun], [UnityEditor.SceneManagement]) leave no
    event. *)

From Stdlib Require Import ZArith String Ascii List SpecFloat.
From stdpp Require Import base option list gmap strings.

Open Scope string_scope.
Open Scope Z_scope.

Set Warnings "-register-all".

(** ** Python values *)

Definition loc := positive.

(** The values the hook handles.  A dict is an object: a value of dict type is
    a reference [PRef] into the store. *)
Inductive pyval :=
| PNone
| PBool (b : bool)
| PInt (z : Z)
| PFloat (f : spec_float)
| PStr (s : string)
| PList (l : list pyval)
| PRef (l : loc).

Abbreviation dict := (gmap string pyval).

(** Every location holds a dict. *)
Definition store := loc -> dict.

Definition store_set (σ : store) (l : loc) (d : dict) : store :=
  fun l' => if decide (l' = l) then d else σ l'.

(** Exceptions.  [exn_str] is Python's [str(e)]. *)
Inductive exn :=
| KeyError (key : string)
| IndexError (msg : string)
| AttributeError (msg : string)
| TypeError (msg : string)
| ValueError (msg : string)
| OverflowError (msg : string)
| ZeroDivisionError (msg : string)
| HostError (kind msg : string).

Definition exn_str (e : exn) : string :=
  match e with
  | KeyError key => "'" +:+ key +:+ "'"
  | IndexError msg | AttributeError msg | TypeError msg | ValueError msg
  | OverflowError msg | ZeroDivisionError msg | HostError _ msg => msg
  end.

Inductive result (A : Type) :=
| Ok (a : A)
| Raise (e : exn).
Arguments Ok {A} a.
Arguments Raise {A} e.

(** ** Floats: Python's float is IEEE binary64 *)

Definition prec : Z := 53.
Definition emax : Z := 1024.

Definition float_is_zero (f : spec_float) : bool :=
  match f with S754_zero _ => true | _ => false end.

(** [float(n)] for an int [n]: round to nearest even, [OverflowError] beyond
    the largest finite double. *)
Definition float_of_int (n : Z) : result spec_float :=
  match binary_normalize prec emax n 0 false with
  | S754_infinity _ => Raise (OverflowError "int too large to convert to float")
  | f => Ok f
  end.

(** [n / f] for an int [n] and a float [f]: true division. *)
Definition int_truediv_float (n : Z) (f : spec_float) : result spec_float :=
  match float_of_int n with
  | Raise e => Raise e
  | Ok x =>
      if float_is_zero f then Raise (ZeroDivisionError "float division by zero")
      else Ok (SFdiv prec emax x f)
  end.

(** [n // d] for comparison: floor division, the other reading of [/]. *)
Definition int_floordiv (n d : Z) : Z := n / d.

(** ** Truthiness and [int()] *)

Definition truthy (σ : store) (v : pyval) : bool :=
  match v with
  | PNone => false
  | PBool b => b
  | PInt z => negb (z =? 0)
  | PFloat f => negb (float_is_zero f)
  | PStr s => negb (String.eqb s "")
  | PList l => match l with [] => false | _ => true end
  | PRef l => negb (bool_decide (σ l = ∅))
  end.

Definition is_space (c : ascii) : bool :=
  let n := nat_of_ascii c in
  (((9 <=? n) && (n <=? 13)) || (n =? 32))%nat.

Definition is_digit (c : ascii) : bool :=
  let n := nat_of_ascii c in ((48 <=? n) && (n <=? 57))%nat.

Definition digit_value (c : ascii) : Z := Z.of_nat (nat_of_ascii c) - 48.

Fixpoint lstrip (s : list ascii) : list ascii :=
  match s with
  | c :: s' => if is_space c then lstrip s' else s
  | [] => []
  end.

Definition strip (s : list ascii) : list ascii :=
  rev (lstrip (rev (lstrip s))).

Fixpoint digits_value (acc : Z) (s : list ascii) : option Z :=
  match s with
  | [] => Some acc
  | c :: s' =>
      if is_digit c then digits_value (10 * acc + digit_value c) s' else None
  end.

Definition unsigned_literal (s : list ascii) : option Z :=
  match s with
  | [] => None
  | _ => digits_value 0 s
  end.

(** [int(s)] for a string, base 10: surrounding whitespace, an optional sign,
    then one or more decimal digits.  (Underscores between digits, which
    later versions of the language accept, are not.) *)
Definition int_of_string (s : string) : option Z :=
  match strip (list_ascii_of_string s) with
  | "-"%char :: ds => Z.opp <$> unsigned_literal ds
  | "+"%char :: ds => unsigned_literal ds
  | ds => unsigned_literal ds
  end.

(** [int(f)] for a float: truncation toward zero. *)
Definition int_of_float (f : spec_float) : result Z :=
  match f with
  | S754_zero _ => Ok 0
  | S754_infinity _ => Raise (OverflowError "cannot convert float infinity to integer")
  | S754_nan => Raise (ValueError "cannot convert float NaN to integer")
  | S754_finite s m e =>
      let a := if (0 <=? e) then Z.shiftl (Zpos m) e else Z.shiftr (Zpos m) (- e) in
      Ok (if s then - a else a)
  end.

Definition py_int (v : pyval) : result Z :=
  match v with
  | PInt z => Ok z
  | PBool b => Ok (if b then 1 else 0)
  | PFloat f => int_of_float f
  | PStr s =>
      match int_of_string s with
      | Some z => Ok z
      | None => Raise (ValueError ("invalid literal for int() with base 10: '" +:+ s +:+ "'"))
      end
  | PNone | PList _ | PRef _ =>
      Raise (TypeError "int() argument must be a string or a number")
  end.

(** ** Unity objects, actions and the trace *)

(** Handles of editor objects; the editor owns what is behind them. *)
Inductive game_object := GameObject (id : N).
Inductive director := PlayableDirector (id : N).
Inductive timeline := TimelineAsset (id : N).

(** One entry of the list [generate_actions] returns: the dict with the keys
    name, params, group, caption and description. *)
Record action := {
  name : string;
  params : pyval;
  group : string;
  caption : string;
  description : string
}.

Inductive level := LvlDebug | LvlError.

(** The calls the hook makes into the Unity editor. *)
Inductive host_call :=
| OpenScene (scene_path : pyval)
| ExecuteMenuItem (item : string)
| FindGameObjectsWithTag (tag : pyval)
| GetComponent (g : game_object)
| SetActiveObject (d : director)
| GetPlayableAsset (d : director)
| GetFps (t : timeline)
| SetTime (d : director) (time : spec_float)
| GetName (g : game_object).

(** Everything the hook does to the outside, in the order it does it.  A
    logger call keeps the message template and its arguments apart. *)
Inductive event :=
| Log (lvl : level) (template : string) (args : list pyval)
| BaseGenerateActions (sg_data : pyval) (actions : list string) (ui_area : string)
| SettingsGet (key : string)
| GetMetadataFromEntity (sg_data : pyval)
| RelatesToCurrentProject (metadata : loc)
| RelatesToExistingScene (metadata : loc)
| DictGet (d : loc) (key : string)
| Host (c : host_call)
| BaseExecuteAction (name : string) (params sg_data : pyval).

(** The collaborators on the toolkit side: the application settings, the base
    hook class and the [unity_metadata] module.  Those that [generate_actions]
    calls return a value (no exception is expected of them); the resolver
    returns None or a dict object, and the two checks read the contents of the
    dict they are handed.  The base executor returns or raises. *)
Record toolkit := {
  settings : dict;
  base_generate_actions : pyval -> list string -> string -> list action;
  base_execute_action : string -> pyval -> pyval -> result unit;
  get_metadata_from_entity : pyval -> option loc;
  relates_to_current_project : dict -> pyval;
  relates_to_existing_scene : dict -> pyval
}.

(** The Unity editor: what each call answers.  A call returns or raises. *)
Record unity := {
  host_OpenScene : pyval -> result unit;
  host_ExecuteMenuItem : string -> result bool;
  host_FindGameObjectsWithTag : pyval -> result (list game_object);
  host_GetComponent : game_object -> result (option director);
  host_set_activeObject : director -> result unit;
  host_playableAsset : director -> result (option timeline);
  host_fps : timeline -> result spec_float;
  host_set_time : director -> spec_float -> result unit;
  host_name : game_object -> result string
}.

(** ** The monad: a store, a trace, and exceptions *)

Record state := { st_store : store; st_trace : list event }.

Definition M (A : Type) : Type := state -> result A * state.

#[export] Instance M_ret : MRet M := fun A a s => (Ok a, s).
#[export] Instance M_bind : MBind M := fun A B f m s =>
  match m s with
  | (Ok a, s') => f a s'
  | (Raise e, s') => (Raise e, s')
  end.

Definition emit (ev : event) : M unit := fun s =>
  (Ok tt, {| st_store := st_store s; st_trace := st_trace s ++ [ev] |}).

Definition lift {A} (r : result A) : M A := fun s => (r, s).

(** A call to a collaborator: recorded, then its answer. *)
Definition call {A} (ev : event) (r : result A) : M A :=
  emit ev ;; lift r.

Definition log (lvl : level) (template : string) (args : list pyval) : M unit :=
  emit (Log lvl template args).

(** [try: body except Exception as e: handler(e)] *)
Definition try_except {A} (body : M A) (handler : exn -> M A) : M A := fun s =>
  match body s with
  | (Ok a, s') => (Ok a, s')
  | (Raise e, s') => handler e s'
  end.

(** What a collaborator sees behind a dict reference it is handed. *)
Definition deref (d : loc) : M dict := fun s => (Ok (st_store s d), s).

Definition is_true (v : pyval) : M bool := fun s => (Ok (truthy (st_store s) v), s).

(** [d.get(key)] on a dict object. *)
Definition dict_get (d : loc) (key : string) : M pyval := fun s =>
  (Ok (default PNone (st_store s d !! key)),
   {| st_store := st_store s; st_trace := st_trace s ++ [DictGet d key] |}).

(** [d[key] = v] on a dict object. *)
Definition dict_setitem (d : loc) (key : string) (v : pyval) : M unit := fun s =>
  (Ok tt,
   {| st_store := store_set (st_store s) d (<[key := v]> (st_store s d));
      st_trace := st_trace s |}).

(** [v.get(key)] and [v[key]] on any value. *)
Definition py_get (v : pyval) (key : string) : M pyval :=
  match v with
  | PRef d => dict_get d key
  | _ => lift (Raise (AttributeError "object has no attribute 'get'"))
  end.

Definition py_getitem (v : pyval) (key : string) : M pyval :=
  match v with
  | PRef d => fun s =>
      (match st_store s d !! key with
       | Some x => Ok x
       | None => Raise (KeyError key)
       end,
       {| st_store := st_store s; st_trace := st_trace s ++ [DictGet d key] |})
  | _ => lift (Raise (TypeError "object is not subscriptable"))
  end.

(** ** [UnityActions.generate_actions] *)

Definition jump_to_frame_action (metadata : loc) : action :=
  {| name := "jump_to_frame";
     params := PRef metadata;
     group := "Jump to Frame";
     caption := "Jump to Frame";
     description := "Opens the associated Unity scene and scrubs to the associated frame." |}.

Definition generate_actions (E : toolkit) (sg_data : pyval) (actions : list string)
    (ui_area : string) : M (list action) :=
  log LvlDebug
    "Generate actions called for UI element %s. Actions: %s. Shotgun Data: %s"
    [PStr ui_area; PList (PStr <$> actions); sg_data] ;;
  (* get the actions from the base class first *)
  action_instances ← call (BaseGenerateActions sg_data actions ui_area)
                          (Ok (base_generate_actions E sg_data actions ui_area)) ;
  if negb (bool_decide ("jump_to_frame" ∈ actions)) then mret action_instances else
  (* the main timeline tag must be defined in the config *)
  main_timeline_tag ← call (SettingsGet "main_timeline_tag")
                           (Ok (default PNone (settings E !! "main_timeline_tag"))) ;
  tag_ok ← is_true main_timeline_tag ;
  if negb tag_ok then mret action_instances else
  (* look for metadata *)
  found ← call (GetMetadataFromEntity sg_data) (Ok (get_metadata_from_entity E sg_data)) ;
  match found with
  | None => mret action_instances
  | Some metadata =>
      metadata_ok ← is_true (PRef metadata) ;
      if negb metadata_ok then mret action_instances else
      (* the metadata should point to the current project *)
      contents ← deref metadata ;
      project ← call (RelatesToCurrentProject metadata)
                     (Ok (relates_to_current_project E contents)) ;
      project_ok ← is_true project ;
      if negb project_ok then mret action_instances else
      (* the metadata should point to a scene that exists in the project *)
      scene ← call (RelatesToExistingScene metadata)
                   (Ok (relates_to_existing_scene E contents)) ;
      scene_ok ← is_true scene ;
      if negb scene_ok then mret action_instances else
      (* there should be a frame number *)
      frame_number ← dict_get metadata "frame_number" ;
      frame_ok ← is_true frame_number ;
      if negb frame_ok then mret action_instances else
      (* add the main timeline tag to the passed params *)
      dict_setitem metadata "main_timeline_tag" main_timeline_tag ;;
      mret (action_instances ++ [jump_to_frame_action metadata])%list
  end.

(** ** [UnityActions.execute_action] *)

(** The double quote character, for the messages that quote a name. *)
Definition dq : string := String (ascii_of_nat 34) "".

Definition no_playable_asset_template : string :=
  "Shotgun is unable to jump to frame: The " +:+ dq +:+ "{}" +:+ dq +:+
  " PlayableDirector does not have a valid Playable Asset assigned.".

Definition no_director_template : string :=
  "Shotgun is unable to jump to frame: please choose a PlayableDirector and tag it with "
  +:+ dq +:+ "{}" +:+ dq +:+ ".".

Definition unable_prefix : string := "Unable to Jump to Frame: ".

(** [game_objects[0]] *)
Definition first_object (game_objects : list game_object) : M game_object :=
  match game_objects with
  | g :: _ => mret g
  | [] => lift (Raise (IndexError "index out of range"))
  end.

(** The body of the [try] under [if main_director:].
    [timeline.editorSettings.fps] is one read of the editor. *)
Definition scrub_body (U : unity) (game_objects : list game_object)
    (main_director : director) (frame_number : Z) : M unit :=
  (* focus on the PlayableDirector in the Timeline window *)
  call (Host (SetActiveObject main_director))
       (host_set_activeObject U main_director) ;;
  timeline ← call (Host (GetPlayableAsset main_director))
                  (host_playableAsset U main_director) ;
  match timeline with
  | Some t =>
      fps ← call (Host (GetFps t)) (host_fps U t) ;
      time ← lift (int_truediv_float frame_number fps) ;
      call (Host (SetTime main_director time)) (host_set_time U main_director time)
  | None =>
      g ← first_object game_objects ;
      n ← call (Host (GetName g)) (host_name U g) ;
      log LvlError no_playable_asset_template [PStr n]
  end.

(** The [try] with its handler. *)
Definition scrub (U : unity) (game_objects : list game_object)
    (main_director : director) (frame_number : Z) : M unit :=
  try_except (scrub_body U game_objects main_director frame_number)
    (fun e => log LvlError (unable_prefix +:+ exn_str e) []).

Definition jump_to_frame (U : unity) (params : pyval) : M unit :=
  (* open the scene *)
  let metadata := params in
  raw ← py_getitem metadata "frame_number" ;
  frame_number ← lift (py_int raw) ;
  scene_path ← py_get metadata "scene_path" ;
  call (Host (OpenScene scene_path)) (host_OpenScene U scene_path) ;;
  (* set the current time *)
  call (Host (ExecuteMenuItem "Window/Sequencing/Timeline"))
       (host_ExecuteMenuItem U "Window/Sequencing/Timeline") ;;
  (* find the right director *)
  tag ← py_getitem params "main_timeline_tag" ;
  game_objects ← call (Host (FindGameObjectsWithTag tag))
                      (host_FindGameObjectsWithTag U tag) ;
  main_director ← match game_objects with
                  | g :: _ => call (Host (GetComponent g)) (host_GetComponent U g)
                  | [] => mret None
                  end ;
  match main_director with
  | Some d => scrub U game_objects d frame_number
  | None =>
      tag' ← py_getitem params "main_timeline_tag" ;
      log LvlError no_director_template [tag']
  end.

Definition execute_action (E : toolkit) (U : unity) (name : string) (params sg_data : pyval) : M unit :=
  log LvlDebug
    "Execute action called for action %s. Parameters: %s. Shotgun Data: %s"
    [PStr name; params; sg_data] ;;
  if bool_decide (name = "jump_to_frame") then jump_to_frame U params
  else call (BaseExecuteAction name params sg_data)
            (base_execute_action E name params sg_data).

(** ** What the claims speak about *)

(** What a run returned, which store it left, and the events it added to an
    empty trace. *)
Definition initial (σ : store) : state := {| st_store := σ; st_trace := [] |}.
Definition outcome {A} (m : M A) (σ : store) : result A := fst (m (initial σ)).
Definition final_store {A} (m : M A) (σ : store) : store := st_store (snd (m (initial σ))).
Definition events {A} (m : M A) (σ : store) : list event := st_trace (snd (m (initial σ))).

Definition configured_tag (E : toolkit) : pyval :=
  default PNone (settings E !! "main_timeline_tag").

Definition frame_number_of (d : dict) : pyval :=
  default PNone (d !! "frame_number").

(** The eligibility conditions of the enumerator, for the metadata object
    [metadata]: requested, configured, resolved and non-falsy, then the three
    checks.  The frame number is tested as the code tests it, by truthiness. *)
Record eligible (E : toolkit) (σ : store) (sg_data : pyval) (actions : list string)
    (metadata : loc) : Prop := {
  el_requested : "jump_to_frame" ∈ actions;
  el_configured : truthy σ (configured_tag E) = true;
  el_resolved : get_metadata_from_entity E sg_data = Some metadata;
  el_metadata : truthy σ (PRef metadata) = true;
  el_project : truthy σ (relates_to_current_project E (σ metadata)) = true;
  el_scene : truthy σ (relates_to_existing_scene E (σ metadata)) = true;
  el_frame_number : truthy σ (frame_number_of (σ metadata)) = true
}.

Definition all_conditions_hold (E : toolkit) (σ : store) (sg_data : pyval)
    (actions : list string) : Prop :=
  ∃ metadata, eligible E σ sg_data actions metadata.

(** A descriptor named jump_to_frame is in the list. *)
Definition jump_offered (l : list action) : Prop :=
  ∃ a, a ∈ l ∧ name a = "jump_to_frame".

(** The four checks on the metadata, in the order of the spec. *)
Inductive check := ChkMetadata | ChkProject | ChkScene | ChkFrameNumber.

Definition all_checks : list check :=
  [ChkMetadata; ChkProject; ChkScene; ChkFrameNumber].

(** Which check an event of the trace evaluates, if any. *)
Definition check_of_event (ev : event) : option check :=
  match ev with
  | GetMetadataFromEntity _ => Some ChkMetadata
  | RelatesToCurrentProject _ => Some ChkProject
  | RelatesToExistingScene _ => Some ChkScene
  | DictGet _ key => if String.eqb key "frame_number" then Some ChkFrameNumber else None
  | _ => None
  end.

Definition checks_evaluated (t : list event) : list check := omap check_of_event t.

Definition check_passes (E : toolkit) (σ : store) (sg_data : pyval) (c : check) : bool :=
  match get_metadata_from_entity E sg_data with
  | None => false
  | Some metadata =>
      match c with
      | ChkMetadata => truthy σ (PRef metadata)
      | ChkProject => truthy σ (relates_to_current_project E (σ metadata))
      | ChkScene => truthy σ (relates_to_existing_scene E (σ metadata))
      | ChkFrameNumber => truthy σ (frame_number_of (σ metadata))
      end
  end.

(** The checks a run evaluates when they are evaluated in the order given and
    the run stops at the first that fails. *)
Fixpoint until_first_failure (pass : check → bool) (cs : list check) : list check :=
  match cs with
  | [] => []
  | c :: cs' => c :: (if pass c then until_first_failure pass cs' else [])
  end.

(** The resolver returned nothing usable, or one of the checks fails. *)
Definition metadata_rejected (E : toolkit) (σ : store) (sg_data : pyval) : Prop :=
  ∃ c, c ∈ all_checks ∧ check_passes E σ sg_data c = false.

(** Is an event a call into the editor?  Does it set a playback time? *)
Definition is_host_call (ev : event) : bool :=
  match ev with Host _ => true | _ => false end.

Definition is_set_time (ev : event) : bool :=
  match ev with Host (SetTime _ _) => true | _ => false end.

Definition generate_preamble (sg_data : pyval) (actions : list string)
    (ui_area : string) : list event :=
  [Log LvlDebug
     "Generate actions called for UI element %s. Actions: %s. Shotgun Data: %s"
     [PStr ui_area; PList (PStr <$> actions); sg_data];
   BaseGenerateActions sg_data actions ui_area].

Definition execute_preamble (name : string) (params sg_data : pyval) : event :=
  Log LvlDebug
    "Execute action called for action %s. Parameters: %s. Shotgun Data: %s"
    [PStr name; params; sg_data].

(** The run of [execute_action] on jump_to_frame, with the params dict at
    [params], has reached the director lookup: the frame number parsed to
    [frame_number], the scene opened, the Timeline window was asked for, and
    the params hold the tag [tag]. *)
Record reaches_lookup (U : unity) (σ : store) (params : loc) (frame_number : Z)
    (tag : pyval) : Prop := {
  rl_frame_number :
    ∃ raw, σ params !! "frame_number" = Some raw ∧ py_int raw = Ok frame_number;
  rl_scene_opened :
    host_OpenScene U (default PNone (σ params !! "scene_path")) = Ok tt;
  rl_menu_item :
    ∃ shown, host_ExecuteMenuItem U "Window/Sequencing/Timeline" = Ok shown;
  rl_tag : σ params !! "main_timeline_tag" = Some tag
}.

(** The director lookup returned: the tagged objects [game_objects] and, from
    the first of them if there is one, [main_director]. *)
Inductive lookup_returns (U : unity) (tag : pyval) :
    list game_object → option director → Prop :=
| lookup_no_object :
    host_FindGameObjectsWithTag U tag = Ok [] →
    lookup_returns U tag [] None
| lookup_first_object g rest main_director :
    host_FindGameObjectsWithTag U tag = Ok (g :: rest) →
    host_GetComponent U g = Ok main_director →
    lookup_returns U tag (g :: rest) main_director.

(** The events of a run up to and including the director lookup. *)
Definition lookup_events (σ : store) (params : loc) (sg_data : pyval)
    (tag : pyval) (game_objects : list game_object) : list event :=
  [execute_preamble "jump_to_frame" (PRef params) sg_data;
   DictGet params "frame_number";
   DictGet params "scene_path";
   Host (OpenScene (default PNone (σ params !! "scene_path")));
   Host (ExecuteMenuItem "Window/Sequencing/Timeline");
   DictGet params "main_timeline_tag";
   Host (FindGameObjectsWithTag tag)] ++
  match game_objects with
  | g :: _ => [Host (GetComponent g)]
  | [] => []
  end.

(** ** Sample data *)

Definition float24 : spec_float := S754_finite false 6755399441055744 (-48).
Definition float2 : spec_float := S754_finite false 4503599627370496 (-51).

(** One metadata dict at location 1, every other location empty. *)
Definition demo_store : store := fun l =>
  if decide (l = 1%positive) then
    {[ "scene_path" := PStr "Assets/Scenes/shot010.unity";
       "frame_number" := PInt 48;
       "main_timeline_tag" := PStr "MainTimeline" ]}
  else ∅.

(** A version entity that resolves to the dict at location 1, in a project
    where both checks pass. *)
Definition demo_toolkit : toolkit := {|
  settings := {[ "main_timeline_tag" := PStr "MainTimeline" ]};
  base_generate_actions := fun _ _ _ => [];
  base_execute_action := fun _ _ _ => Ok tt;
  get_metadata_from_entity := fun _ => Some 1%positive;
  relates_to_current_project := fun _ => PBool true;
  relates_to_existing_scene := fun _ => PBool true
|}.

Definition demo_sg_data : pyval := PRef 2%positive.

(** The same, under a parent hook that offers an action of its own under the
    name jump_to_frame, and with no main_timeline_tag in the settings. *)
Definition parent_action : action :=
  {| name := "jump_to_frame"; params := PNone; group := "Parent";
     caption := "Jump"; description := "Offered by the parent hook." |}.

Definition parent_offers_toolkit : toolkit := {|
  settings := ∅;
  base_generate_actions := fun _ _ _ => [parent_action];
  base_execute_action := fun _ _ _ => Ok tt;
  get_metadata_from_entity := fun _ => Some 1%positive;
  relates_to_current_project := fun _ => PBool true;
  relates_to_existing_scene := fun _ => PBool true
|}.

(** The metadata points to another project. *)
Definition other_project_toolkit : toolkit := {|
  settings := {[ "main_timeline_tag" := PStr "MainTimeline" ]};
  base_generate_actions := fun _ _ _ => [];
  base_execute_action := fun _ _ _ => Ok tt;
  get_metadata_from_entity := fun _ => Some 1%positive;
  relates_to_current_project := fun _ => PBool false;
  relates_to_existing_scene := fun _ => PBool true
|}.

(** Nothing configured, nothing resolved. *)
Definition bare_toolkit : toolkit := {|
  settings := ∅;
  base_generate_actions := fun _ _ _ => [];
  base_execute_action := fun _ _ _ => Ok tt;
  get_metadata_from_entity := fun _ => None;
  relates_to_current_project := fun _ => PNone;
  relates_to_existing_scene := fun _ => PNone
|}.

(** An editor with one tagged object, its director and a timeline at 24
    frames per second. *)
Definition demo_unity : unity := {|
  host_OpenScene := fun _ => Ok tt;
  host_ExecuteMenuItem := fun _ => Ok true;
  host_FindGameObjectsWithTag := fun _ => Ok [GameObject 7];
  host_GetComponent := fun _ => Ok (Some (PlayableDirector 3));
  host_set_activeObject := fun _ => Ok tt;
  host_playableAsset := fun _ => Ok (Some (TimelineAsset 5));
  host_fps := fun _ => Ok float24;
  host_set_time := fun _ _ => Ok tt;
  host_name := fun _ => Ok "Director"
|}.

(** The tag is not defined in the project: the editor refuses the lookup. *)
Definition undefined_tag_unity : unity := {|
  host_OpenScene := fun _ => Ok tt;
  host_ExecuteMenuItem := fun _ => Ok true;
  host_FindGameObjectsWithTag := fun _ =>
    Raise (HostError "UnityException" "Tag: MainTimeline is not defined.");
  host_GetComponent := fun _ => Ok None;
  host_set_activeObject := fun _ => Ok tt;
  host_playableAsset := fun _ => Ok None;
  host_fps := fun _ => Ok float24;
  host_set_time := fun _ _ => Ok tt;
  host_name := fun _ => Ok "Director"
|}.

(** Two tagged objects: the first carries no director, the second does. *)
Definition second_director_unity : unity := {|
  host_OpenScene := fun _ => Ok tt;
  host_ExecuteMenuItem := fun _ => Ok true;
  host_FindGameObjectsWithTag := fun _ => Ok [GameObject 7; GameObject 8];
  host_GetComponent := fun g =>
    match g with
    | GameObject 8 => Ok (Some (PlayableDirector 3))
    | _ => Ok None
    end;
  host_set_activeObject := fun _ => Ok tt;
  host_playableAsset := fun _ => Ok (Some (TimelineAsset 5));
  host_fps := fun _ => Ok float24;
  host_set_time := fun _ _ => Ok tt;
  host_name := fun _ => Ok "Director"
|}.

(** A director with no timeline asset assigned. *)
Definition no_asset_unity : unity := {|
  host_OpenScene := fun _ => Ok tt;
  host_ExecuteMenuItem := fun _ => Ok true;
  host_FindGameObjectsWithTag := fun _ => Ok [GameObject 7];
  host_GetComponent := fun _ => Ok (Some (PlayableDirector 3));
  host_set_activeObject := fun _ => Ok tt;
  host_playableAsset := fun _ => Ok None;
  host_fps := fun _ => Ok float24;
  host_set_time := fun _ _ => Ok tt;
  host_name := fun _ => Ok "Director"
|}.

(** Params whose frame number does not parse. *)
Definition bad_frame_store : store := fun l =>
  if decide (l = 1%positive) then
    {[ "scene_path" := PStr "Assets/Scenes/shot010.unity";
       "frame_number" := PStr "forty-eight";
       "main_timeline_tag" := PStr "MainTimeline" ]}
  else ∅.

(** Metadata for the first frame of a scene, numbered 0. *)
Definition frame_zero_store : store := fun l =>
  if decide (l = 1%positive) then
    {[ "scene_path" := PStr "Assets/Scenes/shot010.unity";
       "frame_number" := PInt 0 ]}
  else ∅.

(** The editor cannot open the scene. *)
Definition missing_scene_unity : unity := {|
  host_OpenScene := fun _ =>
    Raise (HostError "ArgumentException" "Cannot load scene: Invalid scene name");
  host_ExecuteMenuItem := fun _ => Ok true;
  host_FindGameObjectsWithTag := fun _ => Ok [GameObject 7];
  host_GetComponent := fun _ => Ok (Some (PlayableDirector 3));
  host_set_activeObject := fun _ => Ok tt;
  host_playableAsset := fun _ => Ok (Some (TimelineAsset 5));
  host_fps := fun _ => Ok float24;
  host_set_time := fun _ _ => Ok tt;
  host_name := fun _ => Ok "Director"
|}.

(** ** The import-time fix-up of [sys.path] *)

(** Lines 10 to 14 of the module.  [utils_path] is what [os.path] makes of
    the module's own file name (its directory, the parent of it, then utils);
    it is taken as given, since it depends on the platform's path rules.
    The list is [sys.path]. *)
Definition fix_up_sys_path (utils_path : string) (sys_path : list string) : list string :=
  if bool_decide (utils_path ∈ sys_path) then sys_path
  else (sys_path ++ [utils_path])%list.

(** ** The calls into the editor, by kind *)

Inductive call_kind :=
| KOpenScene | KExecuteMenuItem | KFindGameObjectsWithTag | KGetComponent
| KSetActiveObject | KGetPlayableAsset | KGetFps | KSetTime | KGetName.

Definition kind_of (c : host_call) : call_kind :=
  match c with
  | OpenScene _ => KOpenScene
  | ExecuteMenuItem _ => KExecuteMenuItem
  | FindGameObjectsWithTag _ => KFindGameObjectsWithTag
  | GetComponent _ => KGetComponent
  | SetActiveObject _ => KSetActiveObject
  | GetPlayableAsset _ => KGetPlayableAsset
  | GetFps _ => KGetFps
  | SetTime _ _ => KSetTime
  | GetName _ => KGetName
  end.

(** The editor calls of a trace, in order. *)
Definition host_calls (t : list event) : list host_call :=
  omap (λ ev, match ev with Host c => Some c | _ => None end) t.

(** The two complete sequences of editor calls: the one that sets the time,
    and the one that reports a director without a timeline asset. *)
Definition scrub_order : list call_kind :=
  [KOpenScene; KExecuteMenuItem; KFindGameObjectsWithTag; KGetComponent;
   KSetActiveObject; KGetPlayableAsset; KGetFps; KSetTime].

Definition report_order : list call_kind :=
  [KOpenScene; KExecuteMenuItem; KFindGameObjectsWithTag; KGetComponent;
   KSetActiveObject; KGetPlayableAsset; KGetName].

Definition is_base_execute (ev : event) : bool :=
  match ev with BaseExecuteAction _ _ _ => true | _ => false end.

(** ** More sample data *)

(** Params that hold a frame number and nothing else. *)
Definition frame_only_store : store := fun l =>
  if decide (l = 1%positive) then {[ "frame_number" := PInt 48 ]} else ∅.

(** Params with no frame number. *)
Definition no_frame_store : store := fun l =>
  if decide (l = 1%positive) then
    {[ "scene_path" := PStr "Assets/Scenes/shot010.unity";
       "main_timeline_tag" := PStr "MainTimeline" ]}
  else ∅.

(** The first tagged object was destroyed: asking it for a component raises. *)
Definition destroyed_object_unity : unity := {|
  host_OpenScene := fun _ => Ok tt;
  host_ExecuteMenuItem := fun _ => Ok true;
  host_FindGameObjectsWithTag := fun _ => Ok [GameObject 7];
  host_GetComponent := fun _ =>
    Raise (HostError "MissingReferenceException" "The object has been destroyed.");
  host_set_activeObject := fun _ => Ok tt;
  host_playableAsset := fun _ => Ok None;
  host_fps := fun _ => Ok float24;
  host_set_time := fun _ _ => Ok tt;
  host_name := fun _ => Ok "Director"
|}.

(** A timeline that reports zero frames per second. *)
Definition zero_fps_unity : unity := {|
  host_OpenScene := fun _ => Ok tt;
  host_ExecuteMenuItem := fun _ => Ok true;
  host_FindGameObjectsWithTag := fun _ => Ok [GameObject 7];
  host_GetComponent := fun _ => Ok (Some (PlayableDirector 3));
  host_set_activeObject := fun _ => Ok tt;
  host_playableAsset := fun _ => Ok (Some (TimelineAsset 5));
  host_fps := fun _ => Ok (S754_zero false);
  host_set_time := fun _ _ => Ok tt;
  host_name := fun _ => Ok "Director"
|}.

(** ** The conditions in the claim's words *)

(** A value that is there and is not empty.  A number is a frame number
    whatever its value, 0 included; None, the empty string and an empty
    container are empty. *)
Definition nonempty (σ : store) (v : pyval) : bool :=
  match v with
  | PNone => false
  | PBool _ | PInt _ | PFloat _ => true
  | PStr s => negb (String.eqb s "")
  | PList l => match l with [] => false | _ => true end
  | PRef l => negb (bool_decide (σ l = ∅))
  end.

(** The metadata contains a non-empty frame_number. *)
Definition contains_frame_number (σ : store) (d : dict) : Prop :=
  ∃ v, d !! "frame_number" = Some v ∧ nonempty σ v = true.

(** The eligibility conditions as the claim lists them.  They are those of
    [eligible] but for the last, which [eligible] states as the code tests
    it. *)
Record claimed_conditions (E : toolkit) (σ : store) (sg_data : pyval)
    (actions : list string) (metadata : loc) : Prop := {
  cc_requested : "jump_to_frame" ∈ actions;
  cc_configured : truthy σ (configured_tag E) = true;
  cc_resolved : get_metadata_from_entity E sg_data = Some metadata;
  cc_metadata : truthy σ (PRef metadata) = true;
  cc_project : truthy σ (relates_to_current_project E (σ metadata)) = true;
  cc_scene : truthy σ (relates_to_existing_scene E (σ metadata)) = true;
  cc_frame_number : contains_frame_number σ (σ metadata)
}.

(** An action of the base class, and a toolkit whose base class offers it. *)
Definition clipboard_action : action :=
  {| name := "publish_clipboard"; params := PNone; group := "Clipboard";
     caption := "Copy path to clipboard";
     description := "Copies the path of the publish to the clipboard." |}.

Definition panel_toolkit : toolkit := {|
  settings := {[ "main_timeline_tag" := PStr "MainTimeline" ]};
  base_generate_actions := fun _ _ _ => [clipboard_action];
  base_execute_action := fun _ _ _ => Ok tt;
  get_metadata_from_entity := fun _ => Some 1%positive;
  relates_to_current_project := fun _ => PBool true;
  relates_to_existing_scene := fun _ => PBool true
|}.

(** The metadata as the resolver gives it: a scene and a frame, no tag. *)
Definition untagged_store : store := fun l =>
  if decide (l = 1%positive) then
    {[ "scene_path" := PStr "Assets/Scenes/shot010.unity";
       "frame_number" := PInt 48 ]}
  else ∅.

(** * Proofs *)

Ltac mrun :=
  cbv [mbind mret M_bind M_ret call emit lift log is_true deref dict_get
       dict_setitem py_get py_getitem try_except first_object initial
       outcome final_store events];
  cbn [st_store st_trace fst snd negb app].

(** ** The enumerator *)

Section generate.
Context (E : toolkit) (sg_data : pyval) (actions : list string) (ui_area : string).
Context (σ : store).

Let base := base_generate_actions E sg_data actions ui_area.
Let run := generate_actions E sg_data actions ui_area (initial σ).

(** The full run, when every condition holds. *)
Lemma generate_actions_eligible_run metadata :
  eligible E σ sg_data actions metadata →
  run =
    (Ok (base ++ [jump_to_frame_action metadata])%list,
     {| st_store :=
          store_set σ metadata
            (<["main_timeline_tag" := configured_tag E]> (σ metadata));
        st_trace :=
          (generate_preamble sg_data actions ui_area ++
           [SettingsGet "main_timeline_tag"; GetMetadataFromEntity sg_data;
            RelatesToCurrentProject metadata; RelatesToExistingScene metadata;
            DictGet metadata "frame_number"])%list |}).
Proof.
  intros [Hreq Htag Hres Hmeta Hproj Hscene Hframe].
  unfold configured_tag, frame_number_of in *.
  subst run base. unfold generate_actions. mrun.
  rewrite (bool_decide_eq_true_2 _ Hreq). mrun.
  rewrite Htag. mrun. rewrite Hres. mrun.
  cbn [truthy] in Hmeta. cbn [truthy]. rewrite Hmeta. mrun.
  rewrite Hproj. mrun. rewrite Hscene. mrun. rewrite Hframe. mrun.
  reflexivity.
Qed.

(** Every run is of one of two kinds: all conditions hold, or one fails and
    the run returns the base result and leaves the store as it was. *)
Lemma generate_actions_cases :
  (∃ metadata, eligible E σ sg_data actions metadata) ∨
  (¬ all_conditions_hold E σ sg_data actions ∧
   fst run = Ok base ∧ st_store (snd run) = σ).
Proof.
  subst run base. unfold generate_actions. mrun.
  destruct (bool_decide ("jump_to_frame" ∈ actions)) eqn:Hreq; mrun; cycle 1.
  { apply bool_decide_eq_false in Hreq.
    right. split; [|done]. intros [l []]. done. }
  apply bool_decide_eq_true in Hreq.
  fold (configured_tag E).
  destruct (truthy σ (configured_tag E)) eqn:Htag; mrun; cycle 1.
  { right. split; [|done]. intros [l []]. congruence. }
  destruct (get_metadata_from_entity E sg_data) as [l|] eqn:Hres; mrun; cycle 1.
  { right. split; [|done]. intros [l []]. congruence. }
  destruct (truthy σ (PRef l)) eqn:Hmeta; mrun; cycle 1.
  { right. split; [|done]. intros [l' []]. congruence. }
  destruct (truthy σ (relates_to_current_project E (σ l))) eqn:Hproj; mrun; cycle 1.
  { right. split; [|done]. intros [l' []]. congruence. }
  destruct (truthy σ (relates_to_existing_scene E (σ l))) eqn:Hscene; mrun; cycle 1.
  { right. split; [|done]. intros [l' []]. congruence. }
  fold (frame_number_of (σ l)).
  destruct (truthy σ (frame_number_of (σ l))) eqn:Hframe; mrun; cycle 1.
  { right. split; [|done]. intros [l' []]. congruence. }
  left. by exists l.
Qed.

(** The checks a run evaluates: none unless the action is requested and the
    tag configured, then the four in order up to the first that fails. *)
Lemma generate_actions_checks :
  checks_evaluated (st_trace (snd run)) =
    if bool_decide ("jump_to_frame" ∈ actions) && truthy σ (configured_tag E)
    then until_first_failure (check_passes E σ sg_data) all_checks
    else [].
Proof.
  subst run base.
  unfold generate_actions, configured_tag, check_passes, frame_number_of.
  mrun.
  destruct (bool_decide ("jump_to_frame" ∈ actions)); mrun; [|done].
  destruct (truthy σ (default PNone (settings E !! "main_timeline_tag")));
    mrun; [|done].
  destruct (get_metadata_from_entity E sg_data) as [l|]; mrun; [|done].
  cbn [until_first_failure all_checks].
  destruct (truthy σ (PRef l)); mrun; [|done].
  destruct (truthy σ (relates_to_current_project E (σ l))); mrun; [|done].
  destruct (truthy σ (relates_to_existing_scene E (σ l))); mrun; [|done].
  destruct (truthy σ (default PNone (σ l !! "frame_number"))); by mrun.
Qed.
End generate.

Lemma until_first_failure_split (pass : check → bool) (cs : list check) :
  (∃ c, c ∈ cs ∧ pass c = false) →
  ∃ passed failed later,
    cs = (passed ++ failed :: later)%list ∧
    Forall (λ c, pass c = true) passed ∧ pass failed = false ∧
    until_first_failure pass cs = (passed ++ [failed])%list.
Proof.
  induction cs as [|c cs IH]; intros (c' & Hin & Hc').
  - by apply elem_of_nil in Hin.
  - destruct (pass c) eqn:Hc.
    + destruct IH as (passed & failed & later & -> & Hall & Hfail & Heq).
      { apply elem_of_cons in Hin as [->|Hin]; [congruence|by exists c']. }
      exists (c :: passed), failed, later. cbn. rewrite Hc, Heq.
      by repeat split; [constructor|].
    + exists [], c, cs. cbn. by rewrite Hc.
Qed.

Lemma eligible_passes E σ sg_data actions metadata c :
  eligible E σ sg_data actions metadata → check_passes E σ sg_data c = true.
Proof.
  intros [? ? Hres ? ? ? ?]. unfold check_passes. rewrite Hres. by destruct c.
Qed.

Lemma rejected_not_eligible E σ sg_data actions :
  metadata_rejected E σ sg_data → ¬ all_conditions_hold E σ sg_data actions.
Proof.
  intros (c & _ & Hc) [l Hl]. rewrite (eligible_passes _ _ _ _ _ c Hl) in Hc. done.
Qed.

(** What the code does, on the conditions as the code tests them.
    [generate_actions] always returns.  When all the conditions of [eligible]
    hold it returns the base-class result with the complete jump_to_frame
    descriptor appended; when one fails it returns the base-class result
    itself and leaves the store alone, so nothing partial is produced.  A
    descriptor is appended if and only if those conditions hold, and,
    provided the base-class result offers no jump_to_frame of its own, one
    is in the returned list if and only if they hold. *)
Theorem generate_actions_appends_iff (E : toolkit) (sg_data : pyval)
    (actions : list string) (ui_area : string) (σ : store) :
  let base := base_generate_actions E sg_data actions ui_area in
  let m := generate_actions E sg_data actions ui_area in
  ∃ out, outcome m σ = Ok out ∧
    (∀ metadata, eligible E σ sg_data actions metadata →
       out = (base ++ [jump_to_frame_action metadata])%list) ∧
    (¬ all_conditions_hold E σ sg_data actions → out = base ∧ final_store m σ = σ) ∧
    ((∃ a, out = (base ++ [a])%list ∧ name a = "jump_to_frame") ↔
       all_conditions_hold E σ sg_data actions) ∧
    (¬ jump_offered base →
       (jump_offered out ↔ all_conditions_hold E σ sg_data actions)).
Proof.
  intros base m. subst m. unfold outcome, final_store.
  destruct (generate_actions_cases E sg_data actions ui_area σ)
    as [[l Hl]|(Hnot & Hout & Hstore)].
  - rewrite (generate_actions_eligible_run _ _ _ _ _ _ Hl). cbn [fst snd st_store].
    eexists. split; [done|]. fold base.
    assert (all_conditions_hold E σ sg_data actions) as Hall by by exists l.
    split; [|split; [done|split]].
    + intros l' Hl'. destruct Hl, Hl'. congruence.
    + split; [done|]. intros _. by eexists.
    + intros _. split; [done|]. intros _. exists (jump_to_frame_action l).
      split; [|done]. apply elem_of_app. right. by apply list_elem_of_singleton.
  - rewrite Hout, Hstore. exists base. split; [done|].
    split; [|split; [done|split]].
    + intros l Hl. destruct Hnot. by exists l.
    + split; [|done]. intros (a & Ha & _).
      apply (f_equal length) in Ha. rewrite length_app in Ha. cbn in Ha. lia.
    + intros Hbase. split; [done|]. done.
Qed.

(** The base-class result is passed on as it is: under a parent hook that
    offers an action named jump_to_frame itself, and with no
    main_timeline_tag configured, the returned list holds a descriptor of
    that name, the parent's, although this hook produced none. *)
Lemma generate_actions_offered_by_parent :
  (∃ out,
     outcome (generate_actions parent_offers_toolkit demo_sg_data ["jump_to_frame"] "main")
       demo_store = Ok out ∧ jump_offered out) ∧
  ¬ all_conditions_hold parent_offers_toolkit demo_store demo_sg_data ["jump_to_frame"].
Proof.
  split.
  - exists [parent_action]. split; [by vm_compute|].
    exists parent_action. split; [by apply list_elem_of_singleton|done].
  - intros [l [_ Htag _ _ _ _ _]]. by vm_compute in Htag.
Qed.

(** The conditions as the code tests them imply the conditions as the claim
    lists them. *)
Lemma eligible_claimed_conditions E σ sg_data actions metadata :
  eligible E σ sg_data actions metadata →
  claimed_conditions E σ sg_data actions metadata.
Proof.
  intros [? ? ? ? ? ? Hframe]. split; try done.
  unfold frame_number_of in Hframe.
  destruct (σ metadata !! "frame_number") as [v|] eqn:Hv; [|done].
  exists v. split; [done|]. by destruct v.
Qed.

(** The other way round they do, but for the frame number: the code wants it
    truthy. *)
Lemma claimed_conditions_eligible E σ sg_data actions metadata :
  claimed_conditions E σ sg_data actions metadata →
  truthy σ (frame_number_of (σ metadata)) = true →
  eligible E σ sg_data actions metadata.
Proof. intros [? ? ? ? ? ? _] Hframe. by split. Qed.

(** C1, where the code departs from it.  The claim has a jump_to_frame
    descriptor produced if and only if all the conditions hold, the last
    being that the metadata contains a non-empty frame_number; the comment
    at line 74 says the same, that there should be a frame number.  For the
    first frame of a scene, numbered 0, every condition holds: the action is
    requested, the tag configured, the metadata resolved and not empty, both
    checks pass, and the metadata contains the frame number 0, which the
    executor's [int()] accepts.  Yet [generate_actions] returns the
    base-class result, here the empty list, with no descriptor: line 75
    tests the frame number by truthiness, and 0 is falsy. *)
Theorem generate_actions_omits_frame_zero :
  let m := generate_actions demo_toolkit demo_sg_data ["jump_to_frame"] "main" in
  claimed_conditions demo_toolkit frame_zero_store demo_sg_data ["jump_to_frame"]
    1%positive ∧
  frame_zero_store 1%positive !! "frame_number" = Some (PInt 0) ∧
  py_int (PInt 0) = Ok 0 ∧
  outcome m frame_zero_store =
    Ok (base_generate_actions demo_toolkit demo_sg_data ["jump_to_frame"] "main") ∧
  outcome m frame_zero_store = Ok [] ∧
  (jump_offered [] → False).
Proof.
  cbv zeta. split; [|split; [|split; [|split; [|split]]]].
  - split.
    + by apply list_elem_of_singleton.
    + by vm_compute.
    + done.
    + by vm_compute.
    + done.
    + done.
    + exists (PInt 0). split; by vm_compute.
  - by vm_compute.
  - done.
  - by vm_compute.
  - by vm_compute.
  - intros (a & Ha & _). by apply elem_of_nil in Ha.
Qed.

(** C2, as amended.  For an entity that passes every eligibility check,
    [generate_actions] returns the base-class result with exactly one
    descriptor appended: its name is jump_to_frame, its group and caption are
    Jump to Frame, and its params is the very dict the resolver returned, no
    copy of it.  That dict is updated in place: it now maps
    main_timeline_tag to the configured value and every other key to the
    value it had.  No other dict of the store changes. *)
Theorem generate_actions_eligible_result (E : toolkit) (sg_data : pyval)
    (actions : list string) (ui_area : string) (σ : store) (metadata : loc) :
  eligible E σ sg_data actions metadata →
  let base := base_generate_actions E sg_data actions ui_area in
  let m := generate_actions E sg_data actions ui_area in
  ∃ a, outcome m σ = Ok (base ++ [a])%list ∧
    name a = "jump_to_frame" ∧
    group a = "Jump to Frame" ∧
    caption a = "Jump to Frame" ∧
    description a =
      "Opens the associated Unity scene and scrubs to the associated frame." ∧
    params a = PRef metadata ∧
    final_store m σ metadata =
      <["main_timeline_tag" := configured_tag E]> (σ metadata) ∧
    final_store m σ metadata !! "main_timeline_tag" = Some (configured_tag E) ∧
    (∀ key, key ≠ "main_timeline_tag" →
       final_store m σ metadata !! key = σ metadata !! key) ∧
    (∀ l, l ≠ metadata → final_store m σ l = σ l).
Proof.
  intros Hel base m. subst base m. unfold outcome, final_store.
  rewrite (generate_actions_eligible_run _ _ _ _ _ _ Hel).
  cbn [fst snd st_store]. exists (jump_to_frame_action metadata).
  unfold store_set. rewrite decide_True by done.
  repeat split; try done.
  - apply lookup_insert_eq.
  - intros key Hkey. by apply lookup_insert_ne.
  - intros l Hl. by rewrite decide_False.
Qed.

Lemma generate_actions_eligible_result_witness :
  let m := generate_actions panel_toolkit demo_sg_data ["jump_to_frame"] "main" in
  ∃ a,
    outcome m untagged_store = Ok [clipboard_action; a] ∧
    name a = "jump_to_frame" ∧
    params a = PRef 1%positive ∧
    final_store m untagged_store 1%positive !! "main_timeline_tag" =
      Some (PStr "MainTimeline") ∧
    final_store m untagged_store 1%positive !! "frame_number" = Some (PInt 48).
Proof.
  assert (eligible panel_toolkit untagged_store demo_sg_data ["jump_to_frame"]
            1%positive) as Hel.
  { split; [apply list_elem_of_singleton; reflexivity | vm_compute; reflexivity ..]. }
  destruct (generate_actions_eligible_result panel_toolkit demo_sg_data
              ["jump_to_frame"] "main" untagged_store 1%positive Hel)
    as (a & Hout & Hname & _ & _ & _ & Hparams & _ & Htag & Hkeys & _).
  exists a.
  split; [exact Hout|]. split; [exact Hname|]. split; [exact Hparams|].
  split; [exact Htag|].
  rewrite (Hkeys "frame_number") by discriminate. vm_compute. reflexivity.
Defined.

(** The claim C2 as written fails: it has the tag added to a local copy of
    the metadata, which the code never mutates.  Here the resolver returns
    the dict at location 1, which holds no main_timeline_tag.  After the call
    that very dict holds the tag, and the params of the appended descriptor
    is that dict, not a copy. *)
Lemma generate_actions_updates_resolved_dict :
  let m := generate_actions panel_toolkit demo_sg_data ["jump_to_frame"] "main" in
  get_metadata_from_entity panel_toolkit demo_sg_data = Some 1%positive ∧
  untagged_store 1%positive !! "main_timeline_tag" = None ∧
  outcome m untagged_store = Ok [clipboard_action; jump_to_frame_action 1%positive] ∧
  params (jump_to_frame_action 1%positive) = PRef 1%positive ∧
  final_store m untagged_store 1%positive !! "main_timeline_tag" =
    Some (PStr "MainTimeline").
Proof. cbv zeta. repeat split; by vm_compute. Qed.

(** C3.  When the resolver returns no metadata, or the metadata fails one of
    the checks (non-falsy metadata, project match, scene existence, frame
    number), [generate_actions] returns exactly the base-class result and
    leaves the store alone.  The checks run in their fixed order and stop at
    the first that fails: the checks evaluated are those that passed before
    it, then it, and none of the later ones.  (None at all is evaluated
    unless the action is requested and the tag configured.) *)
Theorem generate_actions_rejected (E : toolkit) (sg_data : pyval)
    (actions : list string) (ui_area : string) (σ : store) :
  metadata_rejected E σ sg_data →
  let m := generate_actions E sg_data actions ui_area in
  outcome m σ = Ok (base_generate_actions E sg_data actions ui_area) ∧
  final_store m σ = σ ∧
  ∃ passed failed later,
    all_checks = (passed ++ failed :: later)%list ∧
    Forall (λ c, check_passes E σ sg_data c = true) passed ∧
    check_passes E σ sg_data failed = false ∧
    checks_evaluated (events m σ) =
      if bool_decide ("jump_to_frame" ∈ actions) && truthy σ (configured_tag E)
      then (passed ++ [failed])%list else [].
Proof.
  intros Hrej m. subst m. unfold outcome, final_store, events.
  destruct (generate_actions_cases E sg_data actions ui_area σ)
    as [Hall|(_ & Hout & Hstore)].
  { by destruct (rejected_not_eligible _ _ _ actions Hrej). }
  split; [done|]. split; [done|].
  destruct (until_first_failure_split _ _ Hrej)
    as (passed & failed & later & Hsplit & Hpassed & Hfailed & Heval).
  exists passed, failed, later. repeat split; try done.
  rewrite generate_actions_checks. by rewrite Heval.
Qed.

Lemma generate_actions_rejected_witness :
  let m := generate_actions other_project_toolkit demo_sg_data ["jump_to_frame"] "main" in
  outcome m demo_store = Ok [] ∧
  checks_evaluated (events m demo_store) = [ChkMetadata; ChkProject].
Proof.
  assert (metadata_rejected other_project_toolkit demo_store demo_sg_data) as Hrej.
  { exists ChkProject. split; [|vm_compute; reflexivity].
    apply elem_of_cons. right. apply elem_of_cons. left. reflexivity. }
  destruct (generate_actions_rejected other_project_toolkit demo_sg_data
              ["jump_to_frame"] "main" demo_store Hrej) as (Hout & _ & _).
  split; [exact Hout | vm_compute; reflexivity].
Defined.

(** C4.  When jump_to_frame is not among the requested action names,
    [generate_actions] returns the base-class result, and nothing else about
    the environment matters: two environments with the same base class, however
    their settings, resolver and checks differ, and two stores, give the same
    result.  Beyond the debug log and the base-class call the run makes no
    call: the settings and the resolver are never consulted. *)
Theorem generate_actions_not_requested (E1 E2 : toolkit) (sg_data : pyval)
    (actions : list string) (ui_area : string) (σ1 σ2 : store) :
  "jump_to_frame" ∉ actions →
  base_generate_actions E1 = base_generate_actions E2 →
  let m1 := generate_actions E1 sg_data actions ui_area in
  let m2 := generate_actions E2 sg_data actions ui_area in
  outcome m1 σ1 = Ok (base_generate_actions E1 sg_data actions ui_area) ∧
  outcome m1 σ1 = outcome m2 σ2 ∧
  events m1 σ1 = generate_preamble sg_data actions ui_area ∧
  events m2 σ2 = generate_preamble sg_data actions ui_area ∧
  final_store m1 σ1 = σ1 ∧ final_store m2 σ2 = σ2.
Proof.
  intros Hreq Hbase m1 m2. subst m1 m2.
  unfold generate_actions. mrun.
  rewrite (bool_decide_eq_false_2 _ Hreq). mrun. by rewrite Hbase.
Qed.

Lemma generate_actions_not_requested_witness :
  outcome (generate_actions demo_toolkit demo_sg_data ["publish_clipboard"] "main")
    demo_store =
  outcome (generate_actions bare_toolkit demo_sg_data ["publish_clipboard"] "main")
    (fun _ => ∅).
Proof.
  refine (proj1 (proj2 (generate_actions_not_requested demo_toolkit bare_toolkit
            demo_sg_data ["publish_clipboard"] "main" demo_store (fun _ => ∅) _ _))).
  - intros Hin. apply list_elem_of_singleton in Hin. discriminate Hin.
  - reflexivity.
Defined.

(** ** The executor *)

(** C8.  For an action name other than jump_to_frame, [execute_action] hands
    the same name, params and entity to the base-class executor and returns
    what it returns.  Beyond the debug log that is the only thing the run
    does: it makes no call into the editor and changes no dict. *)
Theorem execute_action_delegates (E : toolkit) (U : unity) (name : string)
    (params sg_data : pyval) (σ : store) :
  name ≠ "jump_to_frame" →
  let m := execute_action E U name params sg_data in
  outcome m σ = base_execute_action E name params sg_data ∧
  events m σ =
    [execute_preamble name params sg_data; BaseExecuteAction name params sg_data] ∧
  Forall (λ ev, is_host_call ev = false) (events m σ) ∧
  final_store m σ = σ.
Proof.
  intros Hname m. subst m. unfold execute_action. mrun.
  rewrite (bool_decide_eq_false_2 _ Hname). mrun.
  repeat split; try done. by repeat constructor.
Qed.

Lemma execute_action_delegates_witness :
  events (execute_action demo_toolkit undefined_tag_unity "publish_clipboard"
            PNone demo_sg_data) demo_store =
    [execute_preamble "publish_clipboard" PNone demo_sg_data;
     BaseExecuteAction "publish_clipboard" PNone demo_sg_data].
Proof.
  refine (proj1 (proj2 (execute_action_delegates demo_toolkit undefined_tag_unity
            "publish_clipboard" PNone demo_sg_data demo_store _))).
  discriminate.
Defined.

Section parse_failure.
Context (E : toolkit) (U : unity) (params : loc) (sg_data : pyval) (σ : store).
Context (raw : pyval) (e : exn).
Hypothesis frame_number_raw : σ params !! "frame_number" = Some raw.
Hypothesis not_an_integer : py_int raw = Raise e.

(** The whole run, when the frame number does not parse. *)
Lemma execute_action_parse_failure_run :
  execute_action E U "jump_to_frame" (PRef params) sg_data (initial σ) =
    (Raise e,
     {| st_store := σ;
        st_trace := [execute_preamble "jump_to_frame" (PRef params) sg_data;
                     DictGet params "frame_number"] |}).
Proof.
  unfold execute_action, jump_to_frame. mrun.
  rewrite bool_decide_eq_true_2 by done. mrun.
  rewrite frame_number_raw, not_an_integer. by mrun.
Qed.
End parse_failure.

(** C6.  When [params['frame_number']] is not parseable as an integer, the
    error [int()] raises is what [execute_action] raises: nothing inside
    catches it, and nothing is logged as an error on the way. *)
Theorem execute_action_parse_error_propagates (E : toolkit) (U : unity)
    (params : loc) (sg_data : pyval) (σ : store) (raw : pyval) (e : exn) :
  σ params !! "frame_number" = Some raw →
  py_int raw = Raise e →
  let m := execute_action E U "jump_to_frame" (PRef params) sg_data in
  outcome m σ = Raise e ∧
  ∀ template args, Log LvlError template args ∉ events m σ.
Proof.
  intros Hraw Hint m. subst m. unfold outcome, events.
  rewrite (execute_action_parse_failure_run E U _ _ _ _ _ Hraw Hint).
  cbn [fst snd st_trace]. split; [done|].
  intros template args Hin.
  apply elem_of_cons in Hin as [Hin|Hin]; [discriminate Hin|].
  apply list_elem_of_singleton in Hin. discriminate Hin.
Qed.

Lemma execute_action_parse_error_propagates_witness :
  outcome (execute_action demo_toolkit demo_unity "jump_to_frame"
             (PRef 1%positive) demo_sg_data) bad_frame_store =
    Raise (ValueError "invalid literal for int() with base 10: 'forty-eight'").
Proof.
  refine (proj1 (execute_action_parse_error_propagates demo_toolkit demo_unity
            1%positive demo_sg_data bad_frame_store (PStr "forty-eight") _ _ _)).
  - vm_compute. reflexivity.
  - vm_compute. reflexivity.
Defined.

(** C9.  The frame number is parsed before any call into the editor.  So when
    the parse fails the error propagates and the editor has not been called:
    no scene was opened, no menu item executed (the Timeline window not
    shown), nothing at all; the run only logged its debug line and read the
    frame number.  No dict changed either. *)
Theorem execute_action_parse_error_before_editor (E : toolkit) (U : unity)
    (params : loc) (sg_data : pyval) (σ : store) (raw : pyval) (e : exn) :
  σ params !! "frame_number" = Some raw →
  py_int raw = Raise e →
  let m := execute_action E U "jump_to_frame" (PRef params) sg_data in
  outcome m σ = Raise e ∧
  events m σ = [execute_preamble "jump_to_frame" (PRef params) sg_data;
                DictGet params "frame_number"] ∧
  Forall (λ ev, is_host_call ev = false) (events m σ) ∧
  (∀ c, Host c ∉ events m σ) ∧
  final_store m σ = σ.
Proof.
  intros Hraw Hint m. subst m. unfold outcome, events, final_store.
  rewrite (execute_action_parse_failure_run E U _ _ _ _ _ Hraw Hint).
  cbn [fst snd st_trace st_store]. repeat split; try done.
  - by repeat constructor.
  - intros c Hin.
    apply elem_of_cons in Hin as [Hin|Hin]; [discriminate Hin|].
    apply list_elem_of_singleton in Hin. discriminate Hin.
Qed.

Lemma execute_action_parse_error_before_editor_witness :
  let m := execute_action demo_toolkit demo_unity "jump_to_frame"
             (PRef 1%positive) demo_sg_data in
  events m bad_frame_store =
    [execute_preamble "jump_to_frame" (PRef 1%positive) demo_sg_data;
     DictGet 1%positive "frame_number"] ∧
  Forall (λ ev, is_host_call ev = false) (events m bad_frame_store).
Proof.
  destruct (execute_action_parse_error_before_editor demo_toolkit demo_unity
       1%positive demo_sg_data bad_frame_store (PStr "forty-eight")
       (ValueError "invalid literal for int() with base 10: 'forty-eight'"))
    as (_ & Hevents & Hhost & _).
  - vm_compute. reflexivity.
  - vm_compute. reflexivity.
  - split; assumption.
Defined.

Section lookup.
Context (E : toolkit) (U : unity) (params : loc) (sg_data : pyval) (σ : store).
Context (frame_number : Z) (tag : pyval).
Hypothesis reached : reaches_lookup U σ params frame_number tag.

Let run := execute_action E U "jump_to_frame" (PRef params) sg_data (initial σ).
Let at_lookup (game_objects : list game_object) : state :=
  {| st_store := σ; st_trace := lookup_events σ params sg_data tag game_objects |}.

(** The run up to the end of the director lookup, and what is left of it. *)
Lemma execute_action_lookup_run game_objects main_director :
  lookup_returns U tag game_objects main_director →
  run =
    match main_director with
    | Some d => scrub U game_objects d frame_number (at_lookup game_objects)
    | None =>
        (Ok tt,
         {| st_store := σ;
            st_trace :=
              (lookup_events σ params sg_data tag game_objects ++
               [DictGet params "main_timeline_tag";
                Log LvlError no_director_template [tag]])%list |})
    end.
Proof.
  destruct reached as [(raw & Hraw & Hint) Hopen [shown Hmenu] Htag].
  intros Hlookup. subst run at_lookup.
  unfold execute_action, jump_to_frame, lookup_events. mrun.
  rewrite bool_decide_eq_true_2 by done. mrun.
  rewrite Hraw, Hint. mrun. rewrite Hopen. mrun. rewrite Hmenu. mrun.
  rewrite Htag. mrun.
  destruct Hlookup as [Hfind|g rest d Hfind Hcomp]; rewrite Hfind; mrun.
  - rewrite Htag. by mrun.
  - rewrite Hcomp. mrun. destruct d as [d|]; [done|]. mrun. rewrite Htag. by mrun.
Qed.

(** The run when the editor refuses the tag lookup: the exception leaves
    [execute_action]. *)
Lemma execute_action_lookup_raises e :
  host_FindGameObjectsWithTag U tag = Raise e → fst run = Raise e.
Proof.
  destruct reached as [(raw & Hraw & Hint) Hopen [shown Hmenu] Htag].
  intros Hfind. subst run. unfold execute_action, jump_to_frame. mrun.
  rewrite bool_decide_eq_true_2 by done. mrun.
  rewrite Hraw, Hint. mrun. rewrite Hopen. mrun. rewrite Hmenu. mrun.
  rewrite Htag. mrun. rewrite Hfind. by mrun.
Qed.
End lookup.

(** The [try] never lets an exception out: the body's result, or the
    handler's log line. *)
Lemma scrub_run (U : unity) game_objects main_director frame_number (s : state) :
  scrub U game_objects main_director frame_number s =
    match scrub_body U game_objects main_director frame_number s with
    | (Ok tt, s') => (Ok tt, s')
    | (Raise e, s') =>
        (Ok tt,
         {| st_store := st_store s';
            st_trace := st_trace s' ++ [Log LvlError (unable_prefix +:+ exn_str e) []] |})
    end.
Proof.
  unfold scrub. mrun.
  by destruct (scrub_body U game_objects main_director frame_number s) as [[[]|e] s'].
Qed.

(** The body of the [try] changes no dict. *)
Lemma scrub_body_store (U : unity) game_objects main_director frame_number (s : state) :
  st_store (snd (scrub_body U game_objects main_director frame_number s)) = st_store s.
Proof.
  unfold scrub_body. mrun.
  destruct (host_set_activeObject U main_director); mrun; [|done].
  destruct (host_playableAsset U main_director) as [[t|]|]; mrun; [| |done].
  - destruct (host_fps U t) as [fps|]; mrun; [|done].
    destruct (int_truediv_float frame_number fps) as [time|]; mrun; [|done].
    by destruct (host_set_time U main_director time).
  - destruct game_objects as [|g rest]; mrun; [done|].
    by destruct (host_name U g).
Qed.

(** C7, as amended.  Once the director lookup of
    [execute_action] on jump_to_frame has returned, the run never raises.
    With no tagged object, or no director on the first one, it logs the
    please-tag error.  With a director whose timeline asset is unset it logs
    another error, naming the object, and sets no time.  And whatever the
    body of the [try] raises, while selecting the director, reading the
    timeline or setting the time, is caught and logged with its cause. *)
Theorem execute_action_after_lookup (E : toolkit) (U : unity) (params : loc)
    (sg_data : pyval) (σ : store) (frame_number : Z) (tag : pyval)
    (game_objects : list game_object) (main_director : option director) :
  reaches_lookup U σ params frame_number tag →
  lookup_returns U tag game_objects main_director →
  let m := execute_action E U "jump_to_frame" (PRef params) sg_data in
  let before := lookup_events σ params sg_data tag game_objects in
  let caught e := Log LvlError (unable_prefix +:+ exn_str e) [] in
  outcome m σ = Ok tt ∧
  (main_director = None →
     events m σ =
       (before ++ [DictGet params "main_timeline_tag";
                   Log LvlError no_director_template [tag]])%list) ∧
  (∀ d g rest object_name,
     main_director = Some d → game_objects = g :: rest →
     host_set_activeObject U d = Ok tt →
     host_playableAsset U d = Ok None →
     host_name U g = Ok object_name →
     events m σ =
       (before ++ [Host (SetActiveObject d); Host (GetPlayableAsset d);
                   Host (GetName g);
                   Log LvlError no_playable_asset_template [PStr object_name]])%list ∧
     Forall (λ ev, is_set_time ev = false) (events m σ)) ∧
  no_playable_asset_template ≠ no_director_template ∧
  (∀ d e s',
     main_director = Some d →
     scrub_body U game_objects d frame_number
       {| st_store := σ; st_trace := before |} = (Raise e, s') →
     events m σ = (st_trace s' ++ [caught e])%list) ∧
  (∀ d e,
     main_director = Some d →
     host_set_activeObject U d = Raise e →
     events m σ = (before ++ [Host (SetActiveObject d); caught e])%list) ∧
  (∀ d e,
     main_director = Some d →
     host_set_activeObject U d = Ok tt →
     host_playableAsset U d = Raise e →
     events m σ =
       (before ++ [Host (SetActiveObject d); Host (GetPlayableAsset d);
                   caught e])%list) ∧
  (∀ d t fps time e,
     main_director = Some d →
     host_set_activeObject U d = Ok tt →
     host_playableAsset U d = Ok (Some t) →
     host_fps U t = Ok fps →
     int_truediv_float frame_number fps = Ok time →
     host_set_time U d time = Raise e →
     events m σ =
       (before ++ [Host (SetActiveObject d); Host (GetPlayableAsset d);
                   Host (GetFps t); Host (SetTime d time); caught e])%list).
Proof.
  intros Hreach Hlookup m before caught. subst m before caught.
  unfold outcome, events.
  rewrite (execute_action_lookup_run E U _ sg_data _ _ _ Hreach _ _ Hlookup).
  split; [|split; [|split; [|split; [|split; [|split; [|split]]]]]].
  - destruct main_director as [d|]; [|done]. rewrite scrub_run.
    by destruct (scrub_body _ _ _ _ _) as [[[]|e] s'].
  - by intros ->.
  - intros d g rest object_name -> -> Hsel Hasset Hname. rewrite scrub_run.
    unfold scrub_body, lookup_events. mrun. rewrite Hsel. mrun.
    rewrite Hasset. mrun. rewrite Hname. mrun.
    split; [done|]. by repeat constructor.
  - by vm_compute.
  - intros d e s' -> Hbody. rewrite scrub_run, Hbody. done.
  - intros d e -> Hsel. rewrite scrub_run.
    unfold scrub_body. mrun. rewrite Hsel. mrun. by rewrite <- app_assoc.
  - intros d e -> Hsel Hasset. rewrite scrub_run.
    unfold scrub_body. mrun. rewrite Hsel. mrun. rewrite Hasset. mrun.
    by rewrite <- !app_assoc.
  - intros d t fps time e -> Hsel Hasset Hfps Hdiv Htime. rewrite scrub_run.
    unfold scrub_body. mrun. rewrite Hsel. mrun. rewrite Hasset. mrun.
    rewrite Hfps. mrun. rewrite Hdiv. mrun. rewrite Htime. mrun.
    by rewrite <- !app_assoc.
Qed.

Lemma demo_reaches_lookup (U : unity) :
  host_OpenScene U (PStr "Assets/Scenes/shot010.unity") = Ok tt →
  host_ExecuteMenuItem U "Window/Sequencing/Timeline" = Ok true →
  reaches_lookup U demo_store 1%positive 48 (PStr "MainTimeline").
Proof.
  intros Hopen Hmenu. split.
  - exists (PInt 48). split; vm_compute; reflexivity.
  - exact Hopen.
  - exists true. exact Hmenu.
  - vm_compute. reflexivity.
Defined.

Lemma execute_action_after_lookup_witness :
  let m := execute_action demo_toolkit no_asset_unity "jump_to_frame"
             (PRef 1%positive) demo_sg_data in
  outcome m demo_store = Ok tt ∧
  events m demo_store =
    (lookup_events demo_store 1%positive demo_sg_data (PStr "MainTimeline")
       [GameObject 7] ++
     [Host (SetActiveObject (PlayableDirector 3));
      Host (GetPlayableAsset (PlayableDirector 3));
      Host (GetName (GameObject 7));
      Log LvlError no_playable_asset_template [PStr "Director"]])%list.
Proof.
  destruct (execute_action_after_lookup demo_toolkit no_asset_unity 1%positive
              demo_sg_data demo_store 48 (PStr "MainTimeline") [GameObject 7]
              (Some (PlayableDirector 3)))
    as (Hout & _ & Hasset & _).
  - apply demo_reaches_lookup; reflexivity.
  - apply lookup_first_object; reflexivity.
  - split; [exact Hout|].
    apply (Hasset (PlayableDirector 3) (GameObject 7) [] "Director");
      reflexivity.
Defined.

(** The claim C7 as written fails: the run has reached the director lookup,
    the editor refuses the lookup because the tag is not defined in the
    project, and the exception leaves [execute_action]. *)
Lemma execute_action_lookup_escapes :
  reaches_lookup undefined_tag_unity demo_store 1%positive 48 (PStr "MainTimeline") ∧
  outcome (execute_action demo_toolkit undefined_tag_unity "jump_to_frame"
             (PRef 1%positive) demo_sg_data) demo_store =
    Raise (HostError "UnityException" "Tag: MainTimeline is not defined.").
Proof.
  split; [by apply demo_reaches_lookup|]. by vm_compute.
Qed.

(** C10.  Only the first object the tag lookup returns is looked at.  When it
    carries no PlayableDirector, the run takes the no-director path and logs
    the please-tag error, whatever the other tagged objects carry: the one
    GetComponent call of the run is for the first object. *)
Theorem execute_action_first_object_only (E : toolkit) (U : unity) (params : loc)
    (sg_data : pyval) (σ : store) (frame_number : Z) (tag : pyval)
    (g : game_object) (rest : list game_object) :
  reaches_lookup U σ params frame_number tag →
  host_FindGameObjectsWithTag U tag = Ok (g :: rest) →
  host_GetComponent U g = Ok None →
  let m := execute_action E U "jump_to_frame" (PRef params) sg_data in
  outcome m σ = Ok tt ∧
  events m σ =
    (lookup_events σ params sg_data tag (g :: rest) ++
     [DictGet params "main_timeline_tag";
      Log LvlError no_director_template [tag]])%list ∧
  (∀ g', Host (GetComponent g') ∈ events m σ → g' = g) ∧
  Forall (λ ev, is_set_time ev = false) (events m σ).
Proof.
  intros Hreach Hfind Hcomp m. subst m. unfold outcome, events.
  rewrite (execute_action_lookup_run E U _ sg_data _ _ _ Hreach (g :: rest) None)
    by by constructor.
  cbn [fst snd st_trace]. split; [done|]. split; [done|]. split.
  - intros g' Hin. unfold lookup_events in Hin. cbn [app] in Hin.
    repeat (apply elem_of_cons in Hin as [Hin|Hin]; [by simplify_eq|]).
    by apply elem_of_nil in Hin.
  - unfold lookup_events. cbn [app]. by repeat constructor.
Qed.

Lemma execute_action_first_object_only_witness :
  let m := execute_action demo_toolkit second_director_unity "jump_to_frame"
             (PRef 1%positive) demo_sg_data in
  host_GetComponent second_director_unity (GameObject 8) =
    Ok (Some (PlayableDirector 3)) ∧
  outcome m demo_store = Ok tt ∧
  events m demo_store =
    (lookup_events demo_store 1%positive demo_sg_data (PStr "MainTimeline")
       [GameObject 7; GameObject 8] ++
     [DictGet 1%positive "main_timeline_tag";
      Log LvlError no_director_template [PStr "MainTimeline"]])%list.
Proof.
  destruct (execute_action_first_object_only demo_toolkit second_director_unity
              1%positive demo_sg_data demo_store 48 (PStr "MainTimeline")
              (GameObject 7) [GameObject 8])
    as (Hout & Hevents & _).
  - apply demo_reaches_lookup; reflexivity.
  - reflexivity.
  - reflexivity.
  - split; [reflexivity|]. split; assumption.
Defined.

(** C5.  With a tagged object whose director has a timeline asset assigned,
    [execute_action] on jump_to_frame sets the director's time to the frame
    number divided by the timeline's fps.  The fps is a float, so the
    division is the true division of floats: the frame number is converted
    to a float and divided, in binary64.  The hypotheses say that the
    division is defined: the frame number fits a float and the fps is not
    zero.  After the call that sets the time the run is over, unless that
    call raises, which is logged. *)
Theorem execute_action_sets_time (E : toolkit) (U : unity) (params : loc)
    (sg_data : pyval) (σ : store) (frame_number : Z) (tag : pyval)
    (g : game_object) (rest : list game_object) (d : director) (t : timeline)
    (fps x : spec_float) :
  reaches_lookup U σ params frame_number tag →
  lookup_returns U tag (g :: rest) (Some d) →
  host_set_activeObject U d = Ok tt →
  host_playableAsset U d = Ok (Some t) →
  host_fps U t = Ok fps →
  float_of_int frame_number = Ok x →
  float_is_zero fps = false →
  let m := execute_action E U "jump_to_frame" (PRef params) sg_data in
  let time := SFdiv prec emax x fps in
  outcome m σ = Ok tt ∧
  events m σ =
    (lookup_events σ params sg_data tag (g :: rest) ++
     [Host (SetActiveObject d); Host (GetPlayableAsset d); Host (GetFps t);
      Host (SetTime d time)] ++
     match host_set_time U d time with
     | Ok _ => []
     | Raise e => [Log LvlError (unable_prefix +:+ exn_str e) []]
     end)%list.
Proof.
  intros Hreach Hlookup Hsel Hasset Hfps Hfloat Hzero m time. subst m time.
  unfold outcome, events.
  rewrite (execute_action_lookup_run E U _ sg_data _ _ _ Hreach _ _ Hlookup).
  rewrite scrub_run. unfold scrub_body, int_truediv_float. mrun.
  rewrite Hsel. mrun. rewrite Hasset. mrun. rewrite Hfps. mrun.
  rewrite Hfloat, Hzero. mrun.
  destruct (host_set_time U d (SFdiv prec emax x fps)) as [[]|e]; mrun;
    by rewrite <- !app_assoc.
Qed.

(** Frame 48 on a timeline at 24 frames per second: the time set is 2.0. *)
Lemma execute_action_sets_time_witness :
  let m := execute_action demo_toolkit demo_unity "jump_to_frame"
             (PRef 1%positive) demo_sg_data in
  outcome m demo_store = Ok tt ∧
  events m demo_store =
    (lookup_events demo_store 1%positive demo_sg_data (PStr "MainTimeline")
       [GameObject 7] ++
     [Host (SetActiveObject (PlayableDirector 3));
      Host (GetPlayableAsset (PlayableDirector 3));
      Host (GetFps (TimelineAsset 5));
      Host (SetTime (PlayableDirector 3) float2)])%list.
Proof.
  exact (execute_action_sets_time demo_toolkit demo_unity 1%positive
           demo_sg_data demo_store 48 (PStr "MainTimeline") (GameObject 7) []
           (PlayableDirector 3) (TimelineAsset 5) float24
           (S754_finite false 6755399441055744 (-47))
           (demo_reaches_lookup demo_unity eq_refl eq_refl)
           (lookup_first_object demo_unity _ _ _ _ eq_refl eq_refl)
           eq_refl eq_refl eq_refl eq_refl eq_refl).
Defined.

(** True division keeps the fraction that floor division drops: frame 49 at
    24 frames per second is a little after 2.0, where 49 // 24 is 2. *)
Lemma truediv_is_not_floordiv :
  int_truediv_float 49 float24 = Ok (S754_finite false 4597424619607381 (-51)) ∧
  float_of_int (int_floordiv 49 24) = Ok float2 ∧
  float_of_int 24 = Ok float24 ∧
  float_of_int 2 = Ok float2.
Proof. by vm_compute. Qed.

(** ** Further facts about the two methods *)

(** The frame number is tested by truthiness (line 75): metadata whose
    frame_number is the integer 0 gets no jump_to_frame action, whatever else
    holds. *)
Theorem generate_actions_frame_zero (E : toolkit) (sg_data : pyval)
    (actions : list string) (ui_area : string) (σ : store) (metadata : loc) :
  get_metadata_from_entity E sg_data = Some metadata →
  σ metadata !! "frame_number" = Some (PInt 0) →
  let m := generate_actions E sg_data actions ui_area in
  outcome m σ = Ok (base_generate_actions E sg_data actions ui_area) ∧
  final_store m σ = σ.
Proof.
  intros Hres Hframe m. subst m. unfold outcome, final_store.
  destruct (generate_actions_cases E sg_data actions ui_area σ)
    as [[l Hl]|(_ & Hout & Hstore)]; [|done].
  destruct Hl as [_ _ Hres' _ _ _ Hzero].
  rewrite Hres in Hres'. injection Hres' as <-.
  unfold frame_number_of in Hzero. rewrite Hframe in Hzero. discriminate Hzero.
Qed.

Lemma generate_actions_frame_zero_witness :
  outcome (generate_actions demo_toolkit demo_sg_data ["jump_to_frame"] "main")
    frame_zero_store = Ok [].
Proof.
  refine (proj1 (generate_actions_frame_zero demo_toolkit demo_sg_data
            ["jump_to_frame"] "main" frame_zero_store 1%positive _ _)).
  - reflexivity.
  - vm_compute. reflexivity.
Defined.

(** The call that opens the scene is not guarded (line 109): when it raises,
    the exception leaves [execute_action] and nothing after it runs. *)
Theorem execute_action_open_scene_raises (E : toolkit) (U : unity) (params : loc)
    (sg_data : pyval) (σ : store) (raw : pyval) (frame_number : Z) (e : exn) :
  σ params !! "frame_number" = Some raw →
  py_int raw = Ok frame_number →
  host_OpenScene U (default PNone (σ params !! "scene_path")) = Raise e →
  let m := execute_action E U "jump_to_frame" (PRef params) sg_data in
  outcome m σ = Raise e ∧
  events m σ =
    [execute_preamble "jump_to_frame" (PRef params) sg_data;
     DictGet params "frame_number"; DictGet params "scene_path";
     Host (OpenScene (default PNone (σ params !! "scene_path")))].
Proof.
  intros Hraw Hint Hopen m. subst m. unfold execute_action, jump_to_frame. mrun.
  rewrite bool_decide_eq_true_2 by done. mrun.
  rewrite Hraw, Hint. mrun. rewrite Hopen. by mrun.
Qed.

Lemma execute_action_open_scene_raises_witness :
  outcome (execute_action demo_toolkit missing_scene_unity "jump_to_frame"
             (PRef 1%positive) demo_sg_data) demo_store =
    Raise (HostError "ArgumentException" "Cannot load scene: Invalid scene name").
Proof.
  refine (proj1 (execute_action_open_scene_raises demo_toolkit missing_scene_unity
            1%positive demo_sg_data demo_store (PInt 48) 48 _ _ _ _)).
  - vm_compute. reflexivity.
  - reflexivity.
  - reflexivity.
Defined.

(** A timeline whose fps is zero: the division raises inside the [try], the
    error is logged with its cause and no time is set. *)
Lemma execute_action_zero_fps (E : toolkit) (U : unity) (params : loc)
    (sg_data : pyval) (σ : store) (frame_number : Z) (tag : pyval)
    (g : game_object) (rest : list game_object) (d : director) (t : timeline)
    (fps x : spec_float) :
  reaches_lookup U σ params frame_number tag →
  lookup_returns U tag (g :: rest) (Some d) →
  host_set_activeObject U d = Ok tt →
  host_playableAsset U d = Ok (Some t) →
  host_fps U t = Ok fps →
  float_of_int frame_number = Ok x →
  float_is_zero fps = true →
  let m := execute_action E U "jump_to_frame" (PRef params) sg_data in
  outcome m σ = Ok tt ∧
  events m σ =
    (lookup_events σ params sg_data tag (g :: rest) ++
     [Host (SetActiveObject d); Host (GetPlayableAsset d); Host (GetFps t);
      Log LvlError (unable_prefix +:+ "float division by zero") []])%list ∧
  Forall (λ ev, is_set_time ev = false) (events m σ).
Proof.
  intros Hreach Hlookup Hsel Hasset Hfps Hfloat Hzero m. subst m.
  unfold outcome, events.
  rewrite (execute_action_lookup_run E U _ sg_data _ _ _ Hreach _ _ Hlookup).
  rewrite scrub_run. unfold scrub_body, int_truediv_float, lookup_events. mrun.
  rewrite Hsel. mrun. rewrite Hasset. mrun. rewrite Hfps. mrun.
  rewrite Hfloat, Hzero. mrun.
  split; [done|]. split; [done|]. by repeat constructor.
Qed.

(** ** The enumerator: what it leaves alone *)

(** Truthiness of a value survives a dict gaining a key. *)
Lemma truthy_store_set (σ : store) (l : loc) (key : string) (v w : pyval) :
  truthy σ w = true →
  truthy (store_set σ l (<[key := v]> (σ l))) w = true.
Proof.
  destruct w as [| | | | | |l']; try done. cbn [truthy]. unfold store_set.
  intros Hw. case_decide as Hl; [|done].
  apply negb_true_iff, bool_decide_eq_false. apply insert_non_empty.
Qed.

(** The only dict entry [generate_actions] can change is main_timeline_tag
    of the dict the resolver returned: every other key of that dict, and every
    key of every other dict, holds after the run what it held before. *)
Theorem generate_actions_frame (E : toolkit) (sg_data : pyval)
    (actions : list string) (ui_area : string) (σ : store) (l : loc) (key : string) :
  key ≠ "main_timeline_tag" ∨ get_metadata_from_entity E sg_data ≠ Some l →
  final_store (generate_actions E sg_data actions ui_area) σ l !! key = σ l !! key.
Proof.
  intros Hother. unfold final_store.
  destruct (generate_actions_cases E sg_data actions ui_area σ)
    as [[l' Hl']|(_ & _ & Hstore)]; [|by rewrite Hstore].
  rewrite (generate_actions_eligible_run _ _ _ _ _ _ Hl'). cbn [snd st_store].
  unfold store_set. case_decide as Heq; [|done]. subst l'.
  destruct Hother as [Hkey|Hres]; [by apply lookup_insert_ne|].
  by destruct Hl'.
Qed.

Lemma generate_actions_frame_witness :
  final_store (generate_actions demo_toolkit demo_sg_data ["jump_to_frame"] "main")
    demo_store 1%positive !! "frame_number" = Some (PInt 48).
Proof.
  refine (eq_trans (generate_actions_frame demo_toolkit demo_sg_data
            ["jump_to_frame"] "main" demo_store 1%positive "frame_number" _) _).
  - left. discriminate.
  - vm_compute. reflexivity.
Defined.

(** With no main_timeline_tag in the settings, or a falsy one, a request for
    jump_to_frame gets the base-class result, and the run stops at the
    settings: the resolver and the checks are never called. *)
Theorem generate_actions_not_configured (E : toolkit) (sg_data : pyval)
    (actions : list string) (ui_area : string) (σ : store) :
  "jump_to_frame" ∈ actions →
  truthy σ (configured_tag E) = false →
  let m := generate_actions E sg_data actions ui_area in
  outcome m σ = Ok (base_generate_actions E sg_data actions ui_area) ∧
  events m σ =
    (generate_preamble sg_data actions ui_area ++ [SettingsGet "main_timeline_tag"])%list ∧
  final_store m σ = σ.
Proof.
  intros Hreq Htag m. subst m. unfold generate_actions, configured_tag in *. mrun.
  rewrite (bool_decide_eq_true_2 _ Hreq). mrun. rewrite Htag. by mrun.
Qed.

Lemma generate_actions_not_configured_witness :
  events (generate_actions bare_toolkit demo_sg_data ["jump_to_frame"] "main")
    demo_store =
  (generate_preamble demo_sg_data ["jump_to_frame"] "main" ++
   [SettingsGet "main_timeline_tag"])%list.
Proof.
  refine (proj1 (proj2 (generate_actions_not_configured bare_toolkit demo_sg_data
            ["jump_to_frame"] "main" demo_store _ _))).
  - apply list_elem_of_singleton. reflexivity.
  - vm_compute. reflexivity.
Defined.

(** Asking twice.  After a run that offered the action, a second run on the
    same entity, if the two external checks still accept the dict now that it
    carries the tag, returns the same list and changes nothing: the tag is
    already there. *)
Theorem generate_actions_twice (E : toolkit) (sg_data : pyval)
    (actions : list string) (ui_area : string) (σ : store) (metadata : loc) :
  eligible E σ sg_data actions metadata →
  let m := generate_actions E sg_data actions ui_area in
  let σ' := final_store m σ in
  truthy σ' (relates_to_current_project E (σ' metadata)) = true →
  truthy σ' (relates_to_existing_scene E (σ' metadata)) = true →
  eligible E σ' sg_data actions metadata ∧
  outcome m σ' = outcome m σ ∧
  ∀ l, final_store m σ' l = σ' l.
Proof.
  intros Hel m σ'. subst σ' m. unfold outcome, final_store.
  rewrite (generate_actions_eligible_run _ _ _ _ _ _ Hel). cbn [fst snd st_store].
  set (tag := configured_tag E).
  set (σ' := store_set σ metadata (<["main_timeline_tag" := tag]> (σ metadata))).
  intros Hproj Hscene.
  assert (σ' metadata = <["main_timeline_tag" := tag]> (σ metadata)) as Hmeta.
  { subst σ'. unfold store_set. by rewrite decide_True. }
  assert (eligible E σ' sg_data actions metadata) as Hel'.
  { destruct Hel as [Hreq Htag Hres Hnonempty _ _ Hframe]. split; try done.
    - by apply truthy_store_set.
    - by apply truthy_store_set.
    - unfold frame_number_of in *. rewrite Hmeta.
      rewrite lookup_insert_ne by done. by apply truthy_store_set. }
  split; [done|].
  rewrite (generate_actions_eligible_run _ _ _ _ _ _ Hel').
  cbn [fst snd st_store]. split; [done|].
  intros l. unfold store_set at 1. case_decide as Hl; [|done]. subst l.
  fold tag. rewrite Hmeta. by rewrite insert_insert_eq.
Qed.

Lemma generate_actions_twice_witness :
  let m := generate_actions demo_toolkit demo_sg_data ["jump_to_frame"] "main" in
  outcome m (final_store m demo_store) = outcome m demo_store.
Proof.
  refine (proj1 (proj2 (generate_actions_twice demo_toolkit demo_sg_data
            ["jump_to_frame"] "main" demo_store 1%positive _ _ _))).
  - split; [apply list_elem_of_singleton; reflexivity | vm_compute; reflexivity ..].
  - reflexivity.
  - reflexivity.
Defined.

(** ** The executor: every path *)

(** Splits a run of [execute_action] into its paths, one goal for each. *)
Ltac execute_paths :=
  unfold execute_action, jump_to_frame, scrub, scrub_body, int_truediv_float;
  mrun;
  repeat (case_match; simplify_eq; mrun).

(** [execute_action] changes no dict, whatever it is given and however the
    run ends. *)
Theorem execute_action_store (E : toolkit) (U : unity) (name : string)
    (params sg_data : pyval) (σ : store) :
  final_store (execute_action E U name params sg_data) σ = σ.
Proof. execute_paths; done. Qed.

(** A request for jump_to_frame is never handed to the base-class executor,
    however the run ends. *)
Theorem execute_action_jump_not_delegated (E : toolkit) (U : unity)
    (params sg_data : pyval) (σ : store) :
  Forall (λ ev, is_base_execute ev = false)
    (events (execute_action E U "jump_to_frame" params sg_data) σ).
Proof. execute_paths; by repeat constructor. Qed.

(** The calls into the editor come in a fixed order, each at most once: the
    editor calls of any run are an initial part of the sequence that ends by
    setting the time, or of the one that ends by reading the name of the
    object whose director has no timeline asset.  In particular the scene
    is opened before anything else is asked of the editor, and the time is
    set at most once, as the last call. *)
Theorem execute_action_call_order (E : toolkit) (U : unity) (name : string)
    (params sg_data : pyval) (σ : store) :
  let calls := host_calls (events (execute_action E U name params sg_data) σ) in
  (kind_of <$> calls) `prefix_of` scrub_order ∨
  (kind_of <$> calls) `prefix_of` report_order.
Proof.
  intros calls. subst calls. execute_paths; simpl;
    first [left; by eexists | right; by eexists].
Qed.


(** ** The executor: missing keys and refused calls *)

(** Params with no frame_number: the subscript raises KeyError before the
    editor is called at all. *)
Theorem execute_action_missing_frame_number (E : toolkit) (U : unity)
    (params : loc) (sg_data : pyval) (σ : store) :
  σ params !! "frame_number" = None →
  let m := execute_action E U "jump_to_frame" (PRef params) sg_data in
  outcome m σ = Raise (KeyError "frame_number") ∧
  events m σ = [execute_preamble "jump_to_frame" (PRef params) sg_data;
                DictGet params "frame_number"] ∧
  host_calls (events m σ) = [].
Proof.
  intros Hnone m. subst m. unfold execute_action, jump_to_frame. mrun.
  rewrite bool_decide_eq_true_2 by done. mrun. rewrite Hnone. by mrun.
Qed.

Lemma execute_action_missing_frame_number_witness :
  outcome (execute_action demo_toolkit demo_unity "jump_to_frame"
             (PRef 1%positive) demo_sg_data) no_frame_store =
    Raise (KeyError "frame_number").
Proof.
  refine (proj1 (execute_action_missing_frame_number demo_toolkit demo_unity
            1%positive demo_sg_data no_frame_store _)).
  vm_compute. reflexivity.
Defined.

(** Params with no scene_path: the key is read with [get], so nothing is
    raised for it and the editor is asked to open the scene None. *)
Theorem execute_action_missing_scene_path (E : toolkit) (U : unity)
    (params : loc) (sg_data : pyval) (σ : store) (raw : pyval) (frame_number : Z) :
  σ params !! "frame_number" = Some raw →
  py_int raw = Ok frame_number →
  σ params !! "scene_path" = None →
  let m := execute_action E U "jump_to_frame" (PRef params) sg_data in
  (host_calls (events m σ) !! 0%nat = Some (OpenScene PNone)) ∧
  ∀ c, c ∈ host_calls (events m σ) → kind_of c = KOpenScene → c = OpenScene PNone.
Proof.
  intros Hraw Hint Hscene m. subst m.
  unfold execute_action, jump_to_frame, scrub, scrub_body, int_truediv_float. mrun.
  rewrite bool_decide_eq_true_2 by done. mrun.
  rewrite Hraw, Hint. mrun. rewrite Hscene. cbn [default from_option].
  repeat (case_match; simplify_eq; mrun); (split; [done|]); simpl;
    intros c Hin Hkind;
    repeat (apply elem_of_cons in Hin as [->|Hin]; [done|]);
    by apply elem_of_nil in Hin.
Qed.

Lemma execute_action_missing_scene_path_witness :
  host_calls (events (execute_action demo_toolkit demo_unity "jump_to_frame"
                        (PRef 1%positive) demo_sg_data) frame_only_store)
    !! 0%nat = Some (OpenScene PNone).
Proof.
  refine (proj1 (execute_action_missing_scene_path demo_toolkit demo_unity
            1%positive demo_sg_data frame_only_store (PInt 48) 48 _ _ _)).
  - vm_compute. reflexivity.
  - reflexivity.
  - vm_compute. reflexivity.
Defined.

(** Params with no main_timeline_tag: the subscript raises KeyError, but only
    after the scene was opened and the Timeline window asked for; the tag
    lookup is not made. *)
Theorem execute_action_missing_tag (E : toolkit) (U : unity) (params : loc)
    (sg_data : pyval) (σ : store) (raw : pyval) (frame_number : Z) (shown : bool) :
  σ params !! "frame_number" = Some raw →
  py_int raw = Ok frame_number →
  host_OpenScene U (default PNone (σ params !! "scene_path")) = Ok tt →
  host_ExecuteMenuItem U "Window/Sequencing/Timeline" = Ok shown →
  σ params !! "main_timeline_tag" = None →
  let m := execute_action E U "jump_to_frame" (PRef params) sg_data in
  outcome m σ = Raise (KeyError "main_timeline_tag") ∧
  events m σ =
    [execute_preamble "jump_to_frame" (PRef params) sg_data;
     DictGet params "frame_number"; DictGet params "scene_path";
     Host (OpenScene (default PNone (σ params !! "scene_path")));
     Host (ExecuteMenuItem "Window/Sequencing/Timeline");
     DictGet params "main_timeline_tag"].
Proof.
  intros Hraw Hint Hopen Hmenu Htag m. subst m.
  unfold execute_action, jump_to_frame. mrun.
  rewrite bool_decide_eq_true_2 by done. mrun.
  rewrite Hraw, Hint. mrun. rewrite Hopen. mrun. rewrite Hmenu. mrun.
  rewrite Htag. by mrun.
Qed.

Lemma execute_action_missing_tag_witness :
  outcome (execute_action demo_toolkit demo_unity "jump_to_frame"
             (PRef 1%positive) demo_sg_data) frame_only_store =
    Raise (KeyError "main_timeline_tag").
Proof.
  refine (proj1 (execute_action_missing_tag demo_toolkit demo_unity 1%positive
            demo_sg_data frame_only_store (PInt 48) 48 true _ _ _ _ _)).
  - vm_compute. reflexivity.
  - reflexivity.
  - reflexivity.
  - reflexivity.
  - vm_compute. reflexivity.
Defined.

(** The director lookup is not guarded: an exception of the tag lookup, or
    of the component lookup on the first object, leaves [execute_action].
    Nothing is logged as an error, and the editor is not called again. *)
Theorem execute_action_lookup_error (E : toolkit) (U : unity) (params : loc)
    (sg_data : pyval) (σ : store) (frame_number : Z) (tag : pyval) :
  reaches_lookup U σ params frame_number tag →
  let m := execute_action E U "jump_to_frame" (PRef params) sg_data in
  (∀ e, host_FindGameObjectsWithTag U tag = Raise e →
     outcome m σ = Raise e ∧
     events m σ = lookup_events σ params sg_data tag []) ∧
  (∀ e g rest,
     host_FindGameObjectsWithTag U tag = Ok (g :: rest) →
     host_GetComponent U g = Raise e →
     outcome m σ = Raise e ∧
     events m σ = lookup_events σ params sg_data tag (g :: rest)).
Proof.
  intros [(raw & Hraw & Hint) Hopen [shown Hmenu] Htag] m. subst m.
  unfold execute_action, jump_to_frame, lookup_events. mrun.
  rewrite bool_decide_eq_true_2 by done. mrun.
  rewrite Hraw, Hint. mrun. rewrite Hopen. mrun. rewrite Hmenu. mrun.
  rewrite Htag. mrun. split.
  - intros e Hfind. rewrite Hfind. by mrun.
  - intros e g rest Hfind Hcomp. rewrite Hfind. mrun. rewrite Hcomp. by mrun.
Qed.

Lemma execute_action_lookup_error_witness :
  let m := execute_action demo_toolkit destroyed_object_unity "jump_to_frame"
             (PRef 1%positive) demo_sg_data in
  outcome m demo_store =
    Raise (HostError "MissingReferenceException" "The object has been destroyed.") ∧
  events m demo_store =
    lookup_events demo_store 1%positive demo_sg_data (PStr "MainTimeline")
      [GameObject 7].
Proof.
  refine (proj2 (execute_action_lookup_error demo_toolkit destroyed_object_unity
            1%positive demo_sg_data demo_store 48 (PStr "MainTimeline") _)
            _ (GameObject 7) [] _ _).
  - apply demo_reaches_lookup; reflexivity.
  - reflexivity.
  - reflexivity.
Defined.

(** When the division of the frame number by the fps raises (a zero fps, a
    frame number too large for a float), the error is caught and logged with
    its cause, the run ends normally, and no time is set. *)
Theorem execute_action_division_error (E : toolkit) (U : unity) (params : loc)
    (sg_data : pyval) (σ : store) (frame_number : Z) (tag : pyval)
    (g : game_object) (rest : list game_object) (d : director) (t : timeline)
    (fps : spec_float) (e : exn) :
  reaches_lookup U σ params frame_number tag →
  lookup_returns U tag (g :: rest) (Some d) →
  host_set_activeObject U d = Ok tt →
  host_playableAsset U d = Ok (Some t) →
  host_fps U t = Ok fps →
  int_truediv_float frame_number fps = Raise e →
  let m := execute_action E U "jump_to_frame" (PRef params) sg_data in
  outcome m σ = Ok tt ∧
  events m σ =
    (lookup_events σ params sg_data tag (g :: rest) ++
     [Host (SetActiveObject d); Host (GetPlayableAsset d); Host (GetFps t);
      Log LvlError (unable_prefix +:+ exn_str e) []])%list ∧
  Forall (λ ev, is_set_time ev = false) (events m σ).
Proof.
  intros Hreach Hlookup Hsel Hasset Hfps Hdiv m. subst m.
  unfold outcome, events.
  rewrite (execute_action_lookup_run E U _ sg_data _ _ _ Hreach _ _ Hlookup).
  rewrite scrub_run. unfold scrub_body, lookup_events. mrun.
  rewrite Hsel. mrun. rewrite Hasset. mrun. rewrite Hfps. mrun.
  rewrite Hdiv. mrun.
  split; [done|]. split; [done|]. by repeat constructor.
Qed.

Lemma execute_action_division_error_witness :
  let m := execute_action demo_toolkit zero_fps_unity "jump_to_frame"
             (PRef 1%positive) demo_sg_data in
  outcome m demo_store = Ok tt ∧
  events m demo_store =
    (lookup_events demo_store 1%positive demo_sg_data (PStr "MainTimeline")
       [GameObject 7] ++
     [Host (SetActiveObject (PlayableDirector 3));
      Host (GetPlayableAsset (PlayableDirector 3));
      Host (GetFps (TimelineAsset 5));
      Log LvlError "Unable to Jump to Frame: float division by zero" []])%list.
Proof.
  destruct (execute_action_division_error demo_toolkit zero_fps_unity 1%positive
              demo_sg_data demo_store 48 (PStr "MainTimeline") (GameObject 7) []
              (PlayableDirector 3) (TimelineAsset 5) (S754_zero false)
              (ZeroDivisionError "float division by zero"))
    as (Hout & Hevents & _).
  - apply demo_reaches_lookup; reflexivity.
  - apply lookup_first_object; reflexivity.
  - reflexivity.
  - reflexivity.
  - reflexivity.
  - reflexivity.
  - split; [exact Hout | exact Hevents].
Defined.

(** ** The two methods together *)

(** The dict the enumerator leaves behind an offered action. *)
Lemma generate_actions_eligible_store (E : toolkit) (sg_data : pyval)
    (actions : list string) (ui_area : string) (σ : store) (metadata : loc) :
  eligible E σ sg_data actions metadata →
  final_store (generate_actions E sg_data actions ui_area) σ metadata =
    <["main_timeline_tag" := configured_tag E]> (σ metadata).
Proof.
  intros Hel. unfold final_store.
  rewrite (generate_actions_eligible_run _ _ _ _ _ _ Hel). cbn [snd st_store].
  unfold store_set. by rewrite decide_True.
Qed.

(** A run that reaches the director lookup makes the tag lookup, whatever
    comes after. *)
Lemma execute_action_lookup_made (E : toolkit) (U : unity) (params : loc)
    (sg_data : pyval) (σ : store) (frame_number : Z) (tag : pyval) :
  reaches_lookup U σ params frame_number tag →
  ∃ later,
    events (execute_action E U "jump_to_frame" (PRef params) sg_data) σ =
      (lookup_events σ params sg_data tag [] ++ later)%list.
Proof.
  intros [(raw & Hraw & Hint) Hopen [shown Hmenu] Htag].
  unfold execute_action, jump_to_frame, scrub, scrub_body, int_truediv_float,
    lookup_events. mrun.
  rewrite bool_decide_eq_true_2 by done. mrun.
  rewrite Hraw, Hint. mrun. rewrite Hopen. mrun. rewrite Hmenu. mrun.
  rewrite Htag. mrun.
  repeat (case_match; simplify_eq; mrun); by eexists.
Qed.

(** The action [generate_actions] offers carries what [execute_action]
    needs.  Run on the params of the offered action, in the store the
    enumerator left, the executor finds the frame number and the scene path
    the resolver gave and the tag the enumerator added: once the frame number
    parses and the scene opens, the tag it looks up in the editor is the
    configured main_timeline_tag. *)
Theorem generated_params_reach_lookup (E : toolkit) (U : unity) (sg_data : pyval)
    (actions : list string) (ui_area : string) (σ : store) (metadata : loc)
    (raw : pyval) (frame_number : Z) (shown : bool) :
  eligible E σ sg_data actions metadata →
  σ metadata !! "frame_number" = Some raw →
  py_int raw = Ok frame_number →
  host_OpenScene U (default PNone (σ metadata !! "scene_path")) = Ok tt →
  host_ExecuteMenuItem U "Window/Sequencing/Timeline" = Ok shown →
  let σ' := final_store (generate_actions E sg_data actions ui_area) σ in
  let m := execute_action E U "jump_to_frame"
             (params (jump_to_frame_action metadata)) sg_data in
  reaches_lookup U σ' metadata frame_number (configured_tag E) ∧
  Host (FindGameObjectsWithTag (configured_tag E)) ∈ events m σ'.
Proof.
  intros Hel Hraw Hint Hopen Hmenu σ' m.
  pose proof (generate_actions_eligible_store E sg_data actions ui_area σ _ Hel)
    as Hmeta. fold σ' in Hmeta.
  assert (reaches_lookup U σ' metadata frame_number (configured_tag E)) as Hreach.
  { split.
    - exists raw. rewrite Hmeta. by rewrite lookup_insert_ne.
    - rewrite Hmeta. by rewrite lookup_insert_ne.
    - by exists shown.
    - rewrite Hmeta. apply lookup_insert_eq. }
  split; [done|]. subst m. cbn [params jump_to_frame_action].
  destruct (execute_action_lookup_made E U metadata sg_data σ' _ _ Hreach)
    as [later ->].
  apply elem_of_app. left. unfold lookup_events. cbn [app].
  do 6 apply list_elem_of_further. apply list_elem_of_here.
Qed.

Lemma generated_params_reach_lookup_witness :
  reaches_lookup demo_unity
    (final_store (generate_actions demo_toolkit demo_sg_data ["jump_to_frame"] "main")
       demo_store)
    1%positive 48 (PStr "MainTimeline").
Proof.
  refine (proj1 (generated_params_reach_lookup demo_toolkit demo_unity demo_sg_data
            ["jump_to_frame"] "main" demo_store 1%positive (PInt 48) 48 true
            _ _ _ _ _)).
  - split; [apply list_elem_of_singleton; reflexivity | vm_compute; reflexivity ..].
  - vm_compute. reflexivity.
  - reflexivity.
  - reflexivity.
  - reflexivity.
Defined.

(** The enumerator's test of the frame number is weaker than the executor's
    parse.  A frame number that is truthy but that [int()] rejects passes the
    enumerator, so the action is offered, and executing the offered action
    raises the parse error. *)
Theorem generated_params_may_not_parse (E : toolkit) (U : unity) (sg_data : pyval)
    (actions : list string) (ui_area : string) (σ : store) (metadata : loc)
    (raw : pyval) (e : exn) :
  eligible E σ sg_data actions metadata →
  σ metadata !! "frame_number" = Some raw →
  py_int raw = Raise e →
  let offer := generate_actions E sg_data actions ui_area in
  let offered := jump_to_frame_action metadata in
  outcome offer σ =
    Ok (base_generate_actions E sg_data actions ui_area ++ [offered])%list ∧
  outcome (execute_action E U (name offered) (params offered) sg_data)
    (final_store offer σ) = Raise e.
Proof.
  intros Hel Hraw Hint offer offered. subst offer offered.
  cbn [name params jump_to_frame_action]. split.
  - unfold outcome. by rewrite (generate_actions_eligible_run _ _ _ _ _ _ Hel).
  - unfold outcome.
    rewrite (execute_action_parse_failure_run E U metadata sg_data _ raw e);
      [done| |done].
    rewrite (generate_actions_eligible_store _ _ _ _ _ _ Hel).
    by rewrite lookup_insert_ne.
Qed.

Lemma generated_params_may_not_parse_witness :
  let offer := generate_actions demo_toolkit demo_sg_data ["jump_to_frame"] "main" in
  outcome offer bad_frame_store = Ok [jump_to_frame_action 1%positive] ∧
  outcome (execute_action demo_toolkit demo_unity "jump_to_frame"
             (PRef 1%positive) demo_sg_data)
    (final_store offer bad_frame_store) =
    Raise (ValueError "invalid literal for int() with base 10: 'forty-eight'").
Proof.
  refine (generated_params_may_not_parse demo_toolkit demo_unity demo_sg_data
            ["jump_to_frame"] "main" bad_frame_store 1%positive
            (PStr "forty-eight") _ _ _ _).
  - split; [apply list_elem_of_singleton; reflexivity | vm_compute; reflexivity ..].
  - vm_compute. reflexivity.
  - vm_compute. reflexivity.
Defined.

(** From the menu to the timeline.  When the action is offered for metadata
    whose frame number parses, and the editor opens the scene, finds a tagged
    object with a director and a timeline asset, then executing the offered
    action sets that director's time to the frame number divided by the
    timeline's fps. *)
Theorem generated_action_sets_time (E : toolkit) (U : unity) (sg_data : pyval)
    (actions : list string) (ui_area : string) (σ : store) (metadata : loc)
    (raw : pyval) (frame_number : Z) (shown : bool)
    (g : game_object) (rest : list game_object) (d : director) (t : timeline)
    (fps x : spec_float) :
  eligible E σ sg_data actions metadata →
  σ metadata !! "frame_number" = Some raw →
  py_int raw = Ok frame_number →
  host_OpenScene U (default PNone (σ metadata !! "scene_path")) = Ok tt →
  host_ExecuteMenuItem U "Window/Sequencing/Timeline" = Ok shown →
  lookup_returns U (configured_tag E) (g :: rest) (Some d) →
  host_set_activeObject U d = Ok tt →
  host_playableAsset U d = Ok (Some t) →
  host_fps U t = Ok fps →
  float_of_int frame_number = Ok x →
  float_is_zero fps = false →
  let offer := generate_actions E sg_data actions ui_area in
  let offered := jump_to_frame_action metadata in
  let m := execute_action E U (name offered) (params offered) sg_data in
  outcome offer σ =
    Ok (base_generate_actions E sg_data actions ui_area ++ [offered])%list ∧
  outcome m (final_store offer σ) = Ok tt ∧
  host_calls (events m (final_store offer σ)) =
    [OpenScene (default PNone (σ metadata !! "scene_path"));
     ExecuteMenuItem "Window/Sequencing/Timeline";
     FindGameObjectsWithTag (configured_tag E);
     GetComponent g; SetActiveObject d; GetPlayableAsset d; GetFps t;
     SetTime d (SFdiv prec emax x fps)].
Proof.
  intros Hel Hraw Hint Hopen Hmenu Hlookup Hsel Hasset Hfps Hfloat Hzero
    offer offered m.
  subst offer offered m. cbn [name params jump_to_frame_action].
  pose proof (generate_actions_eligible_store E sg_data actions ui_area σ _ Hel)
    as Hmeta.
  set (σ' := final_store (generate_actions E sg_data actions ui_area) σ) in *.
  assert (reaches_lookup U σ' metadata frame_number (configured_tag E)) as Hreach.
  { split.
    - exists raw. rewrite Hmeta. by rewrite lookup_insert_ne.
    - rewrite Hmeta. by rewrite lookup_insert_ne.
    - by exists shown.
    - rewrite Hmeta. apply lookup_insert_eq. }
  split.
  { unfold outcome. by rewrite (generate_actions_eligible_run _ _ _ _ _ _ Hel). }
  unfold outcome, events.
  rewrite (execute_action_lookup_run E U _ sg_data _ _ _ Hreach _ _ Hlookup).
  rewrite scrub_run. unfold scrub_body, int_truediv_float, lookup_events. mrun.
  rewrite Hsel. mrun. rewrite Hasset. mrun. rewrite Hfps. mrun.
  rewrite Hfloat, Hzero. mrun.
  rewrite Hmeta, lookup_insert_ne by done.
  by destruct (host_set_time U d (SFdiv prec emax x fps)) as [[]|e].
Qed.

(** Frame 48, offered and executed at 24 frames per second: 2.0. *)
Lemma generated_action_sets_time_witness :
  let offer := generate_actions demo_toolkit demo_sg_data ["jump_to_frame"] "main" in
  host_calls
    (events (execute_action demo_toolkit demo_unity "jump_to_frame"
               (PRef 1%positive) demo_sg_data)
       (final_store offer demo_store)) =
    [OpenScene (PStr "Assets/Scenes/shot010.unity");
     ExecuteMenuItem "Window/Sequencing/Timeline";
     FindGameObjectsWithTag (PStr "MainTimeline");
     GetComponent (GameObject 7); SetActiveObject (PlayableDirector 3);
     GetPlayableAsset (PlayableDirector 3); GetFps (TimelineAsset 5);
     SetTime (PlayableDirector 3) float2].
Proof.
  refine (proj2 (proj2 (generated_action_sets_time demo_toolkit demo_unity
            demo_sg_data ["jump_to_frame"] "main" demo_store 1%positive
            (PInt 48) 48 true (GameObject 7) [] (PlayableDirector 3)
            (TimelineAsset 5) float24 (S754_finite false 6755399441055744 (-47))
            _ _ _ _ _ _ _ _ _ _ _))).
  - split; [apply list_elem_of_singleton; reflexivity | vm_compute; reflexivity ..].
  - vm_compute. reflexivity.
  - reflexivity.
  - reflexivity.
  - reflexivity.
  - apply lookup_first_object; reflexivity.
  - reflexivity.
  - reflexivity.
  - reflexivity.
  - reflexivity.
  - reflexivity.
Defined.

(** ** The import-time fix-up *)

(** After the fix-up the utils directory is on [sys.path].  The entries that
    were there keep their places; the directory is added at the end, and only
    when it was missing, so a list without repeats stays one and running the
    fix-up again (the module imported a second time) changes nothing. *)
Theorem fix_up_sys_path_once (utils_path : string) (sys_path : list string) :
  utils_path ∈ fix_up_sys_path utils_path sys_path ∧
  sys_path `prefix_of` fix_up_sys_path utils_path sys_path ∧
  fix_up_sys_path utils_path (fix_up_sys_path utils_path sys_path) =
    fix_up_sys_path utils_path sys_path ∧
  (NoDup sys_path → NoDup (fix_up_sys_path utils_path sys_path)) ∧
  (∀ p, p ∈ fix_up_sys_path utils_path sys_path ↔ p = utils_path ∨ p ∈ sys_path).
Proof.
  unfold fix_up_sys_path. case_bool_decide as Hin.
  - split; [done|]. split; [done|]. split; [by rewrite bool_decide_eq_true_2|].
    split; [done|]. intros p. split; [by right|]. by intros [->|].
  - assert (utils_path ∈ (sys_path ++ [utils_path])%list) as Hnow.
    { apply elem_of_app. right. by apply list_elem_of_singleton. }
    split; [done|]. split; [by eexists|].
    split; [by rewrite bool_decide_eq_true_2|]. split.
    + intros Hnodup. apply NoDup_app. split; [done|]. split.
      * intros p Hp Hp'. apply list_elem_of_singleton in Hp'. by subst.
      * apply NoDup_singleton.
    + intros p. rewrite elem_of_app, list_elem_of_singleton. tauto.
Qed.

